(** * Slash-command validator and auto-fixer: a shallow embedding

    The development follows [src/fix_commands.py] (class
    [SlashCommandFixer]) and [src/validate_commands.py] (class
    [SlashCommandValidator]).

    Conventions of the embedding.

    - A Python [str] is a Rocq [string]; one Rocq character stands for
      one Python character with code point below 256.  The character
      classes used below ([str.isspace], [\d], [\w], printable
      characters of [repr]) are Python's, restricted to that range.
    - A Python [dict] with string keys is a [gmap string _].
    - A YAML sequence is a mutable Python [list]: it lives in a store
      ([gmap ref (list string)]) and the dictionary holds a reference to
      it, so that the aliasing created by [dict.copy()] is visible.
    - A raised exception is a value of type [exn]; functions that may
      raise return [exn + _].
    - A regular expression of the source is either a scanner written
      for it, or, for the substitution of the syntax repair, a term of
      a small backtracking engine that tries the alternatives in the
      order Python's [re] does.
    - The [frontmatter] package (the YAML parser and serialiser) is not
      part of the repository: it is a parameter of the file-level
      functions.  A reference parser and serialiser, written after the
      description the spec gives of them, instantiate it in the
      examples.
    - Files are a map from paths to texts; a function that reads and
      writes files takes the map and returns the new one. *)

From Stdlib Require Import String Ascii List Bool Arith Lia DecimalString.
From stdpp Require Import gmap strings.

Local Open Scope string_scope.
Local Open Scope list_scope.

(** ** Python string primitives *)

Module Py.

(** [s.startswith(p)] *)
Fixpoint startswith (p s : string) : bool :=
  match p, s with
  | EmptyString, _ => true
  | String a p', String b s' => Ascii.eqb a b && startswith p' s'
  | String _ _, EmptyString => false
  end.

(** [p in s] for two strings: [p] occurs in [s] as a substring. *)
Fixpoint contains (p s : string) : bool :=
  startswith p s ||
  match s with
  | EmptyString => false
  | String _ s' => contains p s'
  end.

(** [c in s] for a single character. *)
Fixpoint has_char (c : ascii) (s : string) : bool :=
  match s with
  | EmptyString => false
  | String b s' => Ascii.eqb c b || has_char c s'
  end.

(** [sep.join(l)] *)
Fixpoint join (sep : string) (l : list string) : string :=
  match l with
  | [] => ""
  | x :: l' =>
      match l' with
      | [] => x
      | _ :: _ => x +:+ sep +:+ join sep l'
      end
  end.

Definition code (c : ascii) : nat := nat_of_ascii c.

(** [c.isspace()] on code points below 256. *)
Definition isspace (c : ascii) : bool :=
  let n := code c in
  (((9 <=? n) && (n <=? 13)) || ((28 <=? n) && (n <=? 32))
   || (n =? 133) || (n =? 160))%nat.

Fixpoint lstrip (s : string) : string :=
  match s with
  | EmptyString => ""
  | String c s' => if isspace c then lstrip s' else s
  end.

Fixpoint rstrip (s : string) : string :=
  match s with
  | EmptyString => ""
  | String c s' =>
      match rstrip s' with
      | EmptyString => if isspace c then "" else String c ""
      | r => String c r
      end
  end.

(** [s.strip()] *)
Definition strip (s : string) : string := rstrip (lstrip s).

(** [\d] on code points below 256: the ASCII digits. *)
Definition isdigit (c : ascii) : bool :=
  let n := code c in ((48 <=? n) && (n <=? 57))%nat.

(** [\w] on code points below 256: letters, digits (with the Latin-1
    superscripts and fractions, which are alphanumeric for Python) and
    the underscore. *)
Definition isword (c : ascii) : bool :=
  let n := code c in
  (((48 <=? n) && (n <=? 57)) || ((65 <=? n) && (n <=? 90))
   || ((97 <=? n) && (n <=? 122)) || (n =? 95)
   || (n =? 170) || (n =? 178) || (n =? 179) || (n =? 181)
   || (n =? 185) || (n =? 186) || ((188 <=? n) && (n <=? 190))
   || ((192 <=? n) && (n <=? 214)) || ((216 <=? n) && (n <=? 246))
   || ((248 <=? n) && (n <=? 255)))%nat.

(** [c.lower()] on code points below 256: the ASCII capitals and the
    Latin-1 capitals (the multiplication sign, 215, is none). *)
Definition lower_char (c : ascii) : ascii :=
  let n := code c in
  if (((65 <=? n) && (n <=? 90))
      || ((192 <=? n) && (n <=? 222) && negb (n =? 215)))%nat
  then ascii_of_nat (n + 32) else c.

(** [s.lower()] *)
Fixpoint lower (s : string) : string :=
  match s with
  | EmptyString => ""
  | String c s' => String (lower_char c) (lower s')
  end.

(** [int(s)] for a non-empty string of ASCII digits. *)
Definition int (s : string) : nat :=
  (fix go (acc : nat) (s : string) : nat :=
     match s with
     | EmptyString => acc
     | String c s' => go (10 * acc + (code c - 48))%nat s'
     end) 0%nat s.

(** [str(n)] for a non-negative integer. *)
Definition str_of_nat (n : nat) : string :=
  NilZero.string_of_uint (Nat.to_uint n).

(** [s.split(',')]: never empty, one more item than there are commas. *)
Fixpoint split_comma (s : string) : list string :=
  match s with
  | EmptyString => [""]
  | String c s' =>
      if Ascii.eqb c ","%char then "" :: split_comma s'
      else
        match split_comma s' with
        | [] => [String c ""]
        | x :: xs => String c x :: xs
        end
  end.

(** *** [repr] of a string

    CPython's [unicode_repr]: single quotes unless the string holds a
    single quote and no double quote; the quote and the backslash are
    escaped with a backslash; tab, newline and carriage return by
    their letters; other non-printable characters as [\xhh]. *)

Definition hex_digit (n : nat) : ascii :=
  match String.get n "0123456789abcdef" with
  | Some c => c
  | None => "0"%char
  end.

Definition printable (c : ascii) : bool :=
  let n := code c in
  ((32 <=? n) && negb (n =? 127)
   && negb ((128 <=? n) && (n <=? 160)) && negb (n =? 173))%nat.

Definition squote : ascii := "'"%char.
Definition dquote : ascii := ascii_of_nat 34.

Definition repr_quote (s : string) : ascii :=
  if has_char squote s && negb (has_char dquote s) then dquote else squote.

Definition repr_char (q c : ascii) : string :=
  if Ascii.eqb c q || Ascii.eqb c "\"%char then String "\"%char (String c "")
  else if (code c =? 9)%nat then "\t"
  else if (code c =? 10)%nat then "\n"
  else if (code c =? 13)%nat then "\r"
  else if printable c then String c ""
  else String "\"%char (String "x"%char
         (String (hex_digit (code c / 16)%nat)
            (String (hex_digit (code c mod 16)%nat) ""))).

Fixpoint repr_body (q : ascii) (s : string) : string :=
  match s with
  | EmptyString => ""
  | String c s' => repr_char q c +:+ repr_body q s'
  end.

Definition repr (s : string) : string :=
  let q := repr_quote s in
  String q (repr_body q s +:+ String q "").

(** [str(l)] for a list of strings. *)
Definition str_of_list (l : list string) : string :=
  "[" +:+ join ", " (map repr l) +:+ "]".

End Py.

(** ** Regular expressions with backtracking

    The part of Python's [re] that the line pattern of the syntax
    repair needs: character classes, the anchors under MULTILINE,
    concatenation, greedy and lazy repetition, numbered groups, and
    [re.sub] with a callback. *)

Module Re.

Inductive regex : Type :=
  | Chr (p : ascii -> bool)
  | Bol
  | Eol
  | Cat (a b : regex)
  | Star (greedy : bool) (a : regex)
  | Group (n : nat) (a : regex).

(** The text of the groups matched so far. *)
Definition captures := list (nat * string).

(** What is left to match: it receives the character before the
    position reached, the text from there on and the captures. *)
Definition cont := option ascii -> string -> captures -> option (captures * string).

Definition is_nl (c : ascii) : bool := Ascii.eqb c (ascii_of_nat 10).

(** [matches r k prev s c]: the first way, in the order in which a
    backtracking engine tries them, to match [r] at the head of [s]
    and then satisfy [k]. *)
Fixpoint matches (r : regex) (k : cont) (prev : option ascii) (s : string)
    (c : captures) {struct r} : option (captures * string) :=
  match r with
  | Chr p =>
      match s with
      | String a s' => if p a then k (Some a) s' c else None
      | EmptyString => None
      end
  | Bol =>
      match prev with
      | None => k prev s c
      | Some a => if is_nl a then k prev s c else None
      end
  | Eol =>
      match s with
      | EmptyString => k prev s c
      | String a _ => if is_nl a then k prev s c else None
      end
  | Cat a b => matches a (matches b k) prev s c
  | Group n a =>
      matches a
        (fun prev' s' c' =>
           k prev' s'
             ((n, String.substring 0 (String.length s - String.length s') s) :: c'))
        prev s c
  | Star greedy a =>
      (fix loop (fuel : nat) (prev : option ascii) (s : string) (c : captures)
         : option (captures * string) :=
         match fuel with
         | O => k prev s c
         | S fuel' =>
             let again :=
               matches a
                 (fun prev' s' c' =>
                    if (String.length s' <? String.length s)%nat
                    then loop fuel' prev' s' c' else None)
                 prev s c in
             if greedy then
               match again with
               | Some x => Some x
               | None => k prev s c
               end
             else
               match k prev s c with
               | Some x => Some x
               | None => again
               end
         end) (S (String.length s)) prev s c
  end.

Definition group (n : nat) (c : captures) : string :=
  match find (fun p => Nat.eqb (fst p) n) c with
  | Some p => snd p
  | None => ""
  end.

(** [re.sub(r, repl, s)] where the callback [repl] receives the groups
    and the whole match and returns the replacement, with the records
    it makes.  The scan goes from left to right; the characters of a
    match are skipped before the next attempt.  A match of the empty
    string is taken as no match (the pattern below has none). *)
Fixpoint sub_from (r : regex) (repl : captures -> string -> string * list string)
    (skip : nat) (prev : option ascii) (s : string) : string * list string :=
  match skip with
  | S skip' =>
      match s with
      | EmptyString => ("", [])
      | String a s' => sub_from r repl skip' (Some a) s'
      end
  | O =>
      let copy :=
        match s with
        | EmptyString => ("", [])
        | String a s' =>
            let '(out, fixes) := sub_from r repl 0 (Some a) s' in
            (String a out, fixes)
        end in
      match matches r (fun _ s' c => Some (c, s')) prev s [] with
      | Some (c, s') =>
          let n := (String.length s - String.length s')%nat in
          match n, s with
          | S n', String a t =>
              let '(rep, made) := repl c (String.substring 0 n s) in
              let '(out, fixes) := sub_from r repl n' (Some a) t in
              (rep +:+ out, made ++ fixes)
          | _, _ => copy
          end
      | None => copy
      end
  end.

Definition sub (r : regex) (repl : captures -> string -> string * list string)
    (s : string) : string * list string :=
  sub_from r repl 0 None s.

End Re.

(** ** Data model *)

(** The identity of a Python list object. *)
Definition ref := nat.

(** A decoded metadata value: a string, a boolean, YAML's null, or a
    reference to a list of strings held in the store. *)
Inductive value : Type :=
  | VStr (s : string)
  | VBool (b : bool)
  | VNone
  | VList (r : ref).

(** The list objects of a run, by identity. *)
Abbreviation store := (gmap nat (list string)).

(** A metadata dictionary. *)
Abbreviation dict := (gmap string value).

Inductive exn : Type :=
  | TypeError (msg : string)
  | OSError (msg : string)
  | ParserError (msg : string).

(** [str(e)] *)
Definition str_of_exn (e : exn) : string :=
  match e with
  | TypeError msg => msg
  | OSError msg => msg
  | ParserError msg => msg
  end.

Definition deref (h : store) (r : ref) : list string := default [] (h !! r).

(** [k in d] *)
Definition has_key (d : dict) (k : string) : bool :=
  match d !! k with
  | Some _ => true
  | None => false
  end.

(** [str(v)], also what an f-string interpolates. *)
Definition py_str (h : store) (v : value) : string :=
  match v with
  | VStr s => s
  | VBool true => "True"
  | VBool false => "False"
  | VNone => "None"
  | VList r => Py.str_of_list (deref h r)
  end.

(** The truth value of a metadata value: [bool(v)]. *)
Definition truthy (h : store) (v : value) : bool :=
  match v with
  | VStr s => negb (String.eqb s "")
  | VBool b => b
  | VNone => false
  | VList r => match deref h r with [] => false | _ :: _ => true end
  end.

(** [bool(l)] for a list. *)
Definition nonempty {A : Type} (l : list A) : bool :=
  match l with
  | [] => false
  | _ :: _ => true
  end.

(** What an observer of a dictionary sees: list references followed
    into the store. *)
Inductive dvalue : Type :=
  | DStr (s : string)
  | DBool (b : bool)
  | DNone
  | DSeq (l : list string).

Definition resolve_value (h : store) (v : value) : dvalue :=
  match v with
  | VStr s => DStr s
  | VBool b => DBool b
  | VNone => DNone
  | VList r => DSeq (deref h r)
  end.

Definition resolve (h : store) (d : dict) : gmap string dvalue :=
  resolve_value h <$> d.

(** ** Paths

    A path is the string that [str(path)] gives for it: components
    separated by slashes, with no slash at the end. *)

(** [path.name]: the last component. *)
Fixpoint path_name (p : string) : string :=
  match p with
  | EmptyString => ""
  | String c p' =>
      if Py.has_char "/"%char p' then path_name p'
      else if Ascii.eqb c "/"%char then p' else p
  end.

(** The test of both tools for the files they leave out. *)
Definition is_readme (file_path : string) : bool :=
  String.eqb (Py.lower (path_name file_path)) "readme.md".

(** ** Body conventions (the regular expressions of the source) *)

Definition nl : string := String (ascii_of_nat 10) "".
Definition backtick : ascii := "`"%char.

(** The longest prefix of ASCII digits: what [\d+] takes. *)
Fixpoint take_digits (s : string) : string :=
  match s with
  | EmptyString => ""
  | String c s' => if Py.isdigit c then String c (take_digits s') else ""
  end.

(** [re.findall(r'\$(\d+)', body)].  A match starts at a dollar sign
    followed by a digit and takes every digit that follows; the scan
    resumes after the match, and the digits it skips hold no dollar
    sign, so resuming right after the dollar sign finds the same
    matches. *)
Fixpoint findall_positional (s : string) : list string :=
  match s with
  | EmptyString => []
  | String c s' =>
      if Ascii.eqb c "$"%char then
        match take_digits s' with
        | EmptyString => findall_positional s'
        | d => d :: findall_positional s'
        end
      else findall_positional s'
  end.

(** The longest prefix without a backtick, and what follows it. *)
Fixpoint span_command (s : string) : string * string :=
  match s with
  | EmptyString => ("", "")
  | String c s' =>
      if Ascii.eqb c backtick then ("", s)
      else let '(g, r) := span_command s' in (String c g, r)
  end.

(** One match of the pattern that has an exclamation mark, a backtick,
    one or more characters other than a backtick, and a backtick, at
    the head of [s]: the group and the length of the match. *)
Definition match_bash (s : string) : option (string * nat) :=
  match s with
  | String c1 (String c2 r) =>
      if Ascii.eqb c1 "!"%char && Ascii.eqb c2 backtick then
        match span_command r with
        | (String g0 g, String _ _) =>
            Some (String g0 g, (3 + String.length (String g0 g))%nat)
        | _ => None
        end
      else None
  | _ => None
  end.

(** The scan of [re.findall]: matches do not overlap, so the
    characters of a match are skipped before the next attempt. *)
Fixpoint findall_bash_from (skip : nat) (s : string) : list string :=
  match s with
  | EmptyString => []
  | String _ s' =>
      match skip with
      | S k => findall_bash_from k s'
      | O =>
          match match_bash s with
          | Some (g, n) => g :: findall_bash_from (n - 1) s'
          | None => findall_bash_from 0 s'
          end
      end
  end.

(** [re.findall] of the shell-execution marker pattern. *)
Definition findall_bash (body : string) : list string :=
  findall_bash_from 0 body.

(** ** The auto-fixer ([src/fix_commands.py]) *)

Module Fixer.

(** [_fix_metadata]: [metadata.copy()] is a new dictionary holding the
    same values, so a list value is shared with the input; this
    function only reads lists and stores new strings. *)
Definition _fix_metadata (h : store) (metadata : dict) (body : string)
  : dict * list string :=
  let fixes : list string := [] in
  let new_metadata := metadata in
  (* Fix description if it's a list *)
  let '(new_metadata, fixes) :=
    match new_metadata !! "description" with
    | Some (VList r) =>
        (<["description" := VStr (Py.join " " (deref h r))]> new_metadata,
         fixes ++ ["Converted description from list to string"])
    | _ => (new_metadata, fixes)
    end in
  (* Fix argument-hint if it's a list *)
  let '(new_metadata, fixes) :=
    match new_metadata !! "argument-hint" with
    | Some (VList r) =>
        (<["argument-hint" := VStr (Py.join " " (deref h r))]> new_metadata,
         fixes ++ ["Converted argument-hint from list to string"])
    | _ => (new_metadata, fixes)
    end in
  (* Add argument-hint if arguments are used but hint is missing *)
  let has_arguments := Py.contains "$ARGUMENTS" body in
  let positional_args := findall_positional body in
  let has_positional := nonempty positional_args in
  if (has_arguments || has_positional)
     && negb (has_key new_metadata "argument-hint") then
    if has_arguments then
      (<["argument-hint" := VStr "[args]"]> new_metadata,
       fixes ++ ["Added generic argument-hint for $ARGUMENTS usage"])
    else if has_positional then
      let max_arg := max_list (map Py.int positional_args) in
      let hint_parts :=
        Py.join " "
          (map (fun i => "[arg" +:+ Py.str_of_nat i +:+ "]") (seq 1 max_arg)) in
      (<["argument-hint" := VStr hint_parts]> new_metadata,
       fixes ++ ["Added argument-hint for positional arguments ($1-$"
                 +:+ Py.str_of_nat max_arg +:+ ")"])
    else (new_metadata, fixes)
  else (new_metadata, fixes).

(** [_check_bash_permissions].  The membership test [in] raises a
    [TypeError] on a value that is neither a string nor a list. *)
Definition _check_bash_permissions (h : store) (metadata : dict) (body : string)
  : exn + list string :=
  let bash_commands := findall_bash body in
  if negb (nonempty bash_commands) then inr []
  else
    match metadata !! "allowed-tools" with
    | None => inr ["Bash commands found but no allowed-tools defined"]
    | Some allowed_tools =>
        let joined : exn + string :=
          match allowed_tools with
          | VList r => inr (Py.join ", " (deref h r))
          | VStr s => inr s
          | VBool _ => inl (TypeError "argument of type 'bool' is not iterable")
          | VNone => inl (TypeError "argument of type 'NoneType' is not iterable")
          end in
        match joined with
        | inl e => inl e
        | inr allowed_tools =>
            if negb (Py.contains "Bash" allowed_tools)
            then inr ["Bash commands found but Bash not in allowed-tools"]
            else inr []
        end
    end.

(** [_add_bash_to_allowed_tools].  The dictionary is copied, the list
    it may hold is not: [tools.append] writes to the store. *)
Definition _add_bash_to_allowed_tools (h : store) (metadata : dict)
  : store * dict :=
  let new_metadata := metadata in
  match new_metadata !! "allowed-tools" with
  | None => (h, <["allowed-tools" := VStr "Bash"]> new_metadata)
  | Some tools =>
      match tools with
      | VList r =>
          let h' := <[r := deref h r ++ ["Bash"]]> h in
          (h', <["allowed-tools" := VList r]> new_metadata)
      | _ =>
          (h, <["allowed-tools" := VStr (py_str h tools +:+ ", Bash")]> new_metadata)
      end
  end.

(** The part of [fix_file] between parsing and writing: the metadata
    fixes, then the permission check on the parsed metadata, then the
    permission fix on the new metadata.  [fixes] is what the parsing
    stage has already recorded.  On an exception the records made so
    far are kept (the list is mutated in place). *)
Definition apply_fixes (h : store) (metadata : dict) (body : string)
    (fixes : list string)
  : (exn * list string) + (store * dict * list string) :=
  let '(new_metadata, metadata_fixes) := _fix_metadata h metadata body in
  let fixes := fixes ++ metadata_fixes in
  match _check_bash_permissions h metadata body with
  | inl e => inl (e, fixes)
  | inr bash_fixes =>
      if nonempty bash_fixes then
        let '(h', new_metadata) := _add_bash_to_allowed_tools h new_metadata in
        inr (h', new_metadata, fixes ++ bash_fixes)
      else inr (h, new_metadata, fixes)
  end.

(** The [re.match] of [_fix_frontmatter_syntax], with DOTALL: the text
    starts with the marker line [---]; then a lazy group, a newline,
    the marker line again, and a greedy group up to the end.  The lazy
    group ends at the first later line that is exactly the marker,
    and the greedy group is all the rest. *)
Fixpoint split_at_closing (s : string) : option (string * string) :=
  if Py.startswith (nl +:+ "---" +:+ nl) s then
    Some ("", String.substring 5 (String.length s - 5) s)
  else
    match s with
    | EmptyString => None
    | String c s' =>
        match split_at_closing s' with
        | Some (fm, body) => Some (String c fm, body)
        | None => None
        end
    end.

Definition fm_match (content : string) : option (string * string) :=
  if Py.startswith ("---" +:+ nl) content
  then split_at_closing (String.substring 4 (String.length content - 4) content)
  else None.

(** The pattern of a key-value line, under MULTILINE: at the start of
    a line a word character and, lazily, word characters and hyphens,
    as group 1; a colon; whitespace, greedily (it may run over line
    breaks); one or more characters other than a line break, lazily,
    as group 2; the end of a line. *)
Definition key_value_line : Re.regex :=
  let dot := Re.Chr (fun c => negb (Re.is_nl c)) in
  Re.Cat Re.Bol
    (Re.Cat
       (Re.Group 1
          (Re.Cat (Re.Chr Py.isword)
             (Re.Star false
                (Re.Chr (fun c => Py.isword c || Ascii.eqb c "-"%char)))))
       (Re.Cat (Re.Chr (fun c => Ascii.eqb c ":"%char))
          (Re.Cat (Re.Star true (Re.Chr Py.isspace))
             (Re.Cat (Re.Group 2 (Re.Cat dot (Re.Star false dot))) Re.Eol)))).

(** The callback [quote_brackets] of [_fix_frontmatter_syntax]. *)
Definition quote_brackets (c : Re.captures) (whole : string)
  : string * list string :=
  let key := Re.group 1 c in
  let value := Re.group 2 c in
  if Py.has_char "["%char value
     && negb (Py.startswith (String Py.dquote "") value
              || Py.startswith "'" value)
  then (key +:+ ": " +:+ String Py.dquote "" +:+ value +:+ String Py.dquote "",
        ["Quoted square brackets in '" +:+ key +:+ "' field"])
  else (whole, []).

(** [re.sub] of the line pattern with the callback, over the metadata
    block. *)
Definition quote_bracket_lines (fm_content : string) : string * list string :=
  Re.sub key_value_line quote_brackets fm_content.

Section Files.

(** [frontmatter.loads]: the decoded metadata (with the list objects
    it created) and the body, or the exception it raises. *)
Variable loads : string -> exn + (store * dict * string).

(** [frontmatter.dumps(frontmatter.Post(body, **metadata))]. *)
Variable dumps : store -> dict -> string -> exn + string.

(** [_fix_frontmatter_syntax] *)
Definition _fix_frontmatter_syntax (content : string) : string * list string :=
  match fm_match content with
  | None => (content, [])
  | Some (fm_content, body) =>
      let '(fm_content, fixes) := quote_bracket_lines fm_content in
      ("---" +:+ nl +:+ fm_content +:+ nl +:+ "---" +:+ nl +:+ body, fixes)
  end.

(** The parsing stage of [fix_file]: parse; on an exception repair the
    syntax and parse once more; on a second exception the records
    made so far, with the failure appended, are what [fix_file]
    returns. *)
Definition parse_with_repair (content : string)
  : list string + (store * dict * string * list string) :=
  match loads content with
  | inr (h, metadata, body) => inr (h, metadata, body, [])
  | inl _ =>
      let '(content, frontmatter_fixes) := _fix_frontmatter_syntax content in
      match loads content with
      | inr (h, metadata, body) => inr (h, metadata, body, frontmatter_fixes)
      | inl e =>
          inl (frontmatter_fixes
               ++ ["Could not parse frontmatter: " +:+ str_of_exn e])
      end
  end.

(** [fix_file]: the files, by path, before and after, and the list of
    records returned.  Any exception not handled inside (a missing
    file, the [TypeError] of the permission check, a failure of the
    serialiser) is caught at the end and recorded. *)
Definition fix_file (dry_run : bool) (fs : gmap string string) (file_path : string)
  : gmap string string * list string :=
  match fs !! file_path with
  | None =>
      (fs, ["Unexpected error: "
            +:+ str_of_exn
                  (OSError ("[Errno 2] No such file or directory: '"
                            +:+ file_path +:+ "'"))])
  | Some content =>
      match parse_with_repair content with
      | inl fixes => (fs, fixes)
      | inr (h, metadata, body, fixes) =>
          match apply_fixes h metadata body fixes with
          | inl (e, fixes) =>
              (fs, fixes ++ ["Unexpected error: " +:+ str_of_exn e])
          | inr (h', new_metadata, fixes) =>
              if nonempty fixes then
                match dumps h' new_metadata body with
                | inl e => (fs, fixes ++ ["Unexpected error: " +:+ str_of_exn e])
                | inr new_content =>
                    if dry_run then (fs, fixes)
                    else (<[file_path := new_content]> fs, fixes)
                end
              else (fs, fixes)
          end
      end
  end.

(** [fix_all].  [listing] is what [rglob] finds under the directory,
    in the order in which it finds it, or nothing when the directory
    does not exist, and then the tool exits with status 1 (the result
    is [None]).  [fixes_applied] is the list kept by the object, empty
    when the object is made; the files are fixed one after the other,
    each on the files the previous ones left. *)
Definition fix_all (dry_run : bool) (listing : option (list string))
    (fs : gmap string string) (fixes_applied : list (string * list string))
  : option (gmap string string * list (string * list string)) :=
  match listing with
  | None => None
  | Some markdown_files =>
      let markdown_files :=
        List.filter (fun f => negb (is_readme f)) markdown_files in
      Some
        (fold_left
           (fun st file_path =>
              let '(fs, fixes_applied) := st in
              let '(fs, fixes) := fix_file dry_run fs file_path in
              if nonempty fixes then (fs, fixes_applied ++ [(file_path, fixes)])
              else (fs, fixes_applied))
           markdown_files (fs, fixes_applied))
  end.

End Files.

(** The number that [print_results] prints after "Total files
    checked": the directory is listed again and one is taken off for
    a README; a Python integer, so it may be negative.  The rest of
    what [print_results] prints is not modelled. *)
Definition print_results_total (listing : list string) : Z :=
  (Z.of_nat (length listing) - 1)%Z.

End Fixer.

(** ** The validator ([src/validate_commands.py]) *)

Module Validator.

Record ValidationResult : Type := mkResult {
  file_path : string;
  is_valid : bool;
  errors : list string;
  warnings : list string;
  info : list string
}.

(** [ValidationResult(file_path=...)] with the dataclass defaults. *)
Definition new_result (path : string) : ValidationResult :=
  mkResult path true [] [] [].

(** The methods mutate the result they are given and may raise: a
    computation maps the result to the updated result and either a
    value or the exception, the updates made before the exception
    being kept. *)
Definition M (A : Type) : Type := ValidationResult -> ValidationResult * (exn + A).

Definition ret {A : Type} (a : A) : M A := fun r => (r, inr a).

Definition bind {A B : Type} (k : A -> M B) (c : M A) : M B :=
  fun r =>
    match c r with
    | (r', inr a) => k a r'
    | (r', inl e) => (r', inl e)
    end.

Definition raise {A : Type} (e : exn) : M A := fun r => (r, inl e).

(** The sequencing notation [c1 ;; c2] is the one of the monad classes. *)
#[global] Instance M_ret : MRet M := @ret.
#[global] Instance M_bind : MBind M := @bind.

Definition add_error (msg : string) : M unit :=
  fun r => (mkResult (file_path r) (is_valid r) (errors r ++ [msg])
              (warnings r) (info r), inr tt).

Definition add_warning (msg : string) : M unit :=
  fun r => (mkResult (file_path r) (is_valid r) (errors r)
              (warnings r ++ [msg]) (info r), inr tt).

Definition add_info (msg : string) : M unit :=
  fun r => (mkResult (file_path r) (is_valid r) (errors r)
              (warnings r) (info r ++ [msg]), inr tt).

Definition set_invalid : M unit :=
  fun r => (mkResult (file_path r) false (errors r) (warnings r) (info r), inr tt).

Definition when (b : bool) (c : M unit) : M unit := if b then c else ret tt.

Definition VALID_FRONTMATTER_FIELDS : gset string :=
  {[ "allowed-tools"; "argument-hint"; "description"; "model";
     "disable-model-invocation" ]}.

Definition VALID_MODELS : list string :=
  [ "claude-3-5-sonnet-20241022"; "claude-3-5-haiku-20241022";
    "claude-opus-4-20250514"; "claude-sonnet-4-5-20250929" ].

(** *** [TOOL_PATTERNS] under [re.match]

    Without MULTILINE the dollar sign matches at the end of the string
    and before a newline that ends it; the dot matches any character
    but a newline. *)

Definition chomp (s : string) : string :=
  let n := String.length s in
  if Py.startswith nl (String.substring (n - 1) 1 s)
     && negb (String.eqb s "")
  then String.substring 0 (n - 1) s else s.

Definition no_newline (s : string) : bool :=
  negb (Py.has_char (ascii_of_nat 10) s).

Definition after (p s : string) : string :=
  String.substring (String.length p) (String.length s - String.length p) s.

(** The pattern up to the dollar sign, matched against all of [t]. *)
Definition tool_pattern_exact (t : string) : bool :=
  existsb (String.eqb t)
    [ "Read"; "Write"; "Edit"; "View"; "Grep"; "Glob"; "Task"; "TodoWrite";
      "Create"; "WebFetch"; "WebSearch" ]
  || (Py.startswith "Bash(" t
      && (let r := after "Bash(" t in
          let n := String.length r in
          (2 <=? n)%nat
          && String.eqb (String.substring (n - 1) 1 r) ")"
          && no_newline (String.substring 0 (n - 1) r)))
  || (Py.startswith "SlashCommand" t && no_newline (after "SlashCommand" t))
  || (Py.startswith "mcp__" t
      && negb (String.eqb (after "mcp__" t) "")
      && no_newline (after "mcp__" t)).

Definition tool_pattern_match (tool : string) : bool :=
  tool_pattern_exact tool || tool_pattern_exact (chomp tool).

(** [_validate_allowed_tools] *)
Definition _validate_allowed_tools (h : store) (tools_value : value) : M unit :=
  let check (tools : list string) : M unit :=
    fold_right
      (fun tool rest =>
         let tool := Py.strip tool in
         (if String.eqb tool "" then ret tt
          else when (negb (tool_pattern_match tool))
                 (add_warning ("Tool '" +:+ tool +:+ "' may not be a valid tool name")))
         ;; rest)
      (ret tt) tools in
  match tools_value with
  | VStr s => check (map Py.strip (Py.split_comma s))
  | VList r => check (deref h r)
  | _ =>
      add_error "'allowed-tools' must be a string or list" ;; set_invalid
  end.

(** The value of a field that may have been decoded as a list, joined
    with single spaces when it was, and then passed to [str]. *)
Definition joined_str (h : store) (v : value) : string :=
  match v with
  | VList r => Py.join " " (deref h r)
  | _ => py_str h v
  end.

(** The blocks of [_validate_frontmatter], in the order of the
    source, each under the comment that heads it there. *)

(** Check for unknown fields.  The names in the warning come in the
    iteration order of a Python set, which is not specified; here
    they come in the order of [elements]. *)
Definition check_unknown_fields (metadata : dict) : M unit :=
  let unknown_fields := dom metadata ∖ VALID_FRONTMATTER_FIELDS in
  when (nonempty (elements unknown_fields))
    (add_warning ("Unknown frontmatter fields: "
                  +:+ Py.join ", " (elements unknown_fields))).

(** Validate description (recommended). *)
Definition check_description (h : store) (metadata : dict) : M unit :=
  match metadata !! "description" with
  | None =>
      add_warning "Missing 'description' field (recommended for /help listing)"
  | Some desc =>
      let desc := Py.strip (joined_str h desc) in
      if String.eqb desc "" then
        add_error "'description' field is empty" ;; set_invalid
      else
        when (200 <? String.length desc)%nat
          (add_warning "'description' is very long (>200 chars). Consider shortening.")
  end.

(** Validate allowed-tools. *)
Definition check_allowed_tools (h : store) (metadata : dict) : M unit :=
  match metadata !! "allowed-tools" with
  | Some tools_value => _validate_allowed_tools h tools_value
  | None => ret tt
  end.

(** Validate model.  A list is unhashable, so the membership test in
    the set of models raises. *)
Definition check_model (h : store) (metadata : dict) : M unit :=
  match metadata !! "model" with
  | Some (VList _) => raise (TypeError "unhashable type: 'list'")
  | Some model =>
      when (negb (match model with
                  | VStr s => existsb (String.eqb s) VALID_MODELS
                  | _ => false
                  end))
        (add_warning ("Model '" +:+ py_str h model
                      +:+ "' may not be valid. Check Claude documentation."))
  | None => ret tt
  end.

(** Validate argument-hint. *)
Definition check_argument_hint (h : store) (metadata : dict) : M unit :=
  match metadata !! "argument-hint" with
  | Some hint =>
      let hint_s :=
        match hint with
        | VList r =>
            let j := Py.join " " (deref h r) in
            if String.eqb j "" then "" else Py.strip j
        | _ => if truthy h hint then Py.strip (py_str h hint) else ""
        end in
      when (String.eqb hint_s "") (add_warning "'argument-hint' is empty")
  | None => ret tt
  end.

(** Validate disable-model-invocation. *)
Definition check_disable_model_invocation (metadata : dict) : M unit :=
  match metadata !! "disable-model-invocation" with
  | Some (VBool _) => ret tt
  | Some _ =>
      add_error "'disable-model-invocation' must be a boolean (true/false)" ;;
      set_invalid
  | None => ret tt
  end.

(** [_validate_frontmatter] *)
Definition _validate_frontmatter (h : store) (metadata : dict) : M unit :=
  if bool_decide (metadata = ∅) then
    add_warning "No frontmatter found. Consider adding 'description' field."
  else
    check_unknown_fields metadata ;;
    check_description h metadata ;;
    check_allowed_tools h metadata ;;
    check_model h metadata ;;
    check_argument_hint h metadata ;;
    check_disable_model_invocation metadata.

Definition is_ref_char (c : ascii) : bool :=
  Py.isword c || Ascii.eqb c "-"%char || Ascii.eqb c "."%char
  || Ascii.eqb c "/"%char.

(** The number of matches of the file-reference pattern: an at sign
    followed by one or more path characters (the at sign is none). *)
Fixpoint count_file_refs (s : string) : nat :=
  match s with
  | EmptyString => 0
  | String c s' =>
      if Ascii.eqb c "@"%char then
        match s' with
        | String d _ => (if is_ref_char d then 1 else 0) + count_file_refs s'
        | EmptyString => 0
        end
      else count_file_refs s'
  end.

Definition thinking_keywords : list string :=
  [ "<ultrathink>"; "<megaexpertise>"; "<think>"; "<thinking>" ].

Section Files.

(** [frontmatter.loads], as for the fixer; [frontmatter.load] on an
    open file reads it and does the same. *)
Variable loads : string -> exn + (store * dict * string).

(** [_get_frontmatter_from_file]: every exception gives [None]. *)
Definition _get_frontmatter_from_file (fs : gmap string string) (path : string)
  : option (store * dict) :=
  match fs !! path with
  | None => None
  | Some content =>
      match loads content with
      | inr (h, metadata, _) => Some (h, metadata)
      | inl _ => None
      end
  end.

(** [_validate_content] *)
Definition _validate_content (fs : gmap string string) (body : string)
    (path : string) : M unit :=
  if String.eqb body "" || String.eqb (Py.strip body) "" then
    add_error "File has no content after frontmatter" ;; set_invalid
  else
    (* Check for bash command execution (! prefix) *)
    let bash_commands := findall_bash body in
    when (nonempty bash_commands)
      (add_info ("Found " +:+ Py.str_of_nat (length bash_commands)
                 +:+ " bash command execution(s)") ;;
       (* Check if Bash tool is allowed *)
       match _get_frontmatter_from_file fs path with
       | Some (h, metadata_check) =>
           if bool_decide (metadata_check = ∅) then ret tt
           else
             match metadata_check !! "allowed-tools" with
             | Some v =>
                 let allowed_tools := py_str h v in
                 when (negb (Py.contains "Bash" allowed_tools))
                   (add_error "Bash commands found but 'Bash' not in allowed-tools" ;;
                    set_invalid)
             | None => ret tt
             end
       | None => ret tt
       end) ;;
    (* Check for file references (@ prefix) *)
    let file_refs := count_file_refs body in
    when (0 <? file_refs)%nat
      (add_info ("Found " +:+ Py.str_of_nat file_refs +:+ " file reference(s)")) ;;
    (* Check for thinking mode keywords *)
    when (existsb (fun keyword => Py.contains keyword body) thinking_keywords)
      (add_info "Extended thinking mode detected").

(** [_validate_arguments] *)
Definition _validate_arguments (metadata : dict) (body : string) : M unit :=
  let has_arguments := Py.contains "$ARGUMENTS" body in
  let positional_args := findall_positional body in
  let has_positional := nonempty positional_args in
  when (has_arguments && has_positional)
    (add_warning "Mixed usage of $ARGUMENTS and positional args ($1, $2). Use one style.") ;;
  when ((has_arguments || has_positional) && negb (has_key metadata "argument-hint"))
    (add_warning "Arguments detected but no 'argument-hint' in frontmatter") ;;
  when (has_key metadata "argument-hint" && negb has_arguments && negb has_positional)
    (add_warning "'argument-hint' specified but no $ARGUMENTS or $N found in content").

(** [validate_file] *)
Definition validate_file (fs : gmap string string) (path : string)
  : ValidationResult :=
  let result := new_result path in
  let run : M unit :=
    match fs !! path with
    | None =>
        raise (OSError ("[Errno 2] No such file or directory: '" +:+ path +:+ "'"))
    | Some content =>
        match loads content with
        | inl e =>
            set_invalid ;;
            add_error ("Failed to parse frontmatter: " +:+ str_of_exn e)
        | inr (h, metadata, body) =>
            _validate_frontmatter h metadata ;;
            _validate_content fs body path ;;
            _validate_arguments metadata body
        end
    end in
  match run result with
  | (result, inr _) => result
  | (result, inl e) =>
      fst ((set_invalid ;;
            add_error ("Unexpected error: " +:+ str_of_exn e)) result)
  end.

(** [validate_all], with [listing] as for [fix_all] of the fixer and
    [results] the list kept by the object: one result per file that
    is not a README, in the order of the listing. *)
Definition validate_all (listing : option (list string))
    (fs : gmap string string) (results : list ValidationResult)
  : option (list ValidationResult) :=
  match listing with
  | None => None
  | Some markdown_files =>
      let markdown_files :=
        List.filter (fun f => negb (is_readme f)) markdown_files in
      Some
        (fold_left
           (fun results file_path => results ++ [validate_file fs file_path])
           markdown_files results)
  end.

End Files.

(** The value [print_results] returns, which [main] passes to
    [sys.exit]: 0 when no result is invalid, 1 otherwise.  What it
    prints is not modelled. *)
Definition print_results (results : list ValidationResult) : nat :=
  let total := length results in
  let valid := length (List.filter (fun r => is_valid r) results) in
  let invalid := (total - valid)%nat in
  if (invalid =? 0)%nat then 0%nat else 1%nat.

End Validator.

(** ** A reference parser and serialiser *)

Module Reference.

(** [s.split(newline)] *)
Fixpoint lines (s : string) : list string :=
  match s with
  | EmptyString => [""]
  | String c s' =>
      if Ascii.eqb c (ascii_of_nat 10) then "" :: lines s'
      else
        match lines s' with
        | [] => [String c ""]
        | x :: xs => String c x :: xs
        end
  end.

(** The lines before the first closing marker line and those after. *)
Fixpoint split_block (ls : list string) : option (list string * list string) :=
  match ls with
  | [] => None
  | l :: ls' =>
      if String.eqb l "---" then Some ([], ls')
      else
        match split_block ls' with
        | Some (block, rest) => Some (l :: block, rest)
        | None => None
        end
  end.

(** The key of a line and what follows the first colon. *)
Fixpoint split_key (s : string) : option (string * string) :=
  match s with
  | EmptyString => None
  | String c s' =>
      if Ascii.eqb c ":"%char then Some ("", s')
      else
        match split_key s' with
        | Some (k, v) => Some (String c k, v)
        | None => None
        end
  end.

Definition last_char (s : string) : string :=
  String.substring (String.length s - 1) 1 s.

Definition inner (s : string) : string :=
  String.substring 1 (String.length s - 2) s.

Inductive scalar : Type :=
  | SStr (s : string)
  | SBool (b : bool)
  | SNull
  | SSeq (l : list string).

(** One value of the restricted mapping grammar: empty (null), a
    boolean, a bracketed sequence of strings, a quoted string (single
    or double quotes), or a plain string. *)
Definition decode_value (v : string) : option scalar :=
  let v := Py.strip v in
  if String.eqb v "" then Some SNull
  else if String.eqb v "true" then Some (SBool true)
  else if String.eqb v "false" then Some (SBool false)
  else if Py.startswith "[" v then
    if String.eqb (last_char v) "]" && (2 <=? String.length v)%nat
    then Some (SSeq (if String.eqb (inner v) "" then []
                     else map Py.strip (Py.split_comma (inner v))))
    else None
  else if Py.startswith "'" v then
    if String.eqb (last_char v) "'" && (2 <=? String.length v)%nat
    then Some (SStr (inner v)) else None
  else if Py.startswith (String Py.dquote "") v then
    if String.eqb (last_char v) (String Py.dquote "")
       && (2 <=? String.length v)%nat
    then Some (SStr (inner v)) else None
  else Some (SStr v).

(** The lines of a block, decoded in order; a sequence becomes a new
    list object, named by the number of its line. *)
Fixpoint decode_block (n : nat) (block : list string) (h : store) (d : dict)
  : option (store * dict) :=
  match block with
  | [] => Some (h, d)
  | l :: block' =>
      if String.eqb (Py.strip l) "" then decode_block (S n) block' h d
      else
        match split_key l with
        | None => None
        | Some (k, v) =>
            match decode_value v with
            | None => None
            | Some (SStr s) => decode_block (S n) block' h (<[k := VStr s]> d)
            | Some (SBool b) => decode_block (S n) block' h (<[k := VBool b]> d)
            | Some SNull => decode_block (S n) block' h (<[k := VNone]> d)
            | Some (SSeq items) =>
                decode_block (S n) block' (<[n := items]> h) (<[k := VList n]> d)
            end
        end
  end.

(** Modelled from the spec: the frontmatter parser, which the source
    imports from the [frontmatter] package.  Without an opening marker
    line there is no metadata and the body is the text; with an
    opening marker and no closing marker line, or with a block that
    does not decode, parsing fails; otherwise the body starts right
    after the line break of the closing marker. *)
Definition loads (text : string) : exn + (store * dict * string) :=
  match lines text with
  | first :: rest =>
      if String.eqb first "---" then
        match split_block rest with
        | None => inl (ParserError "no closing marker")
        | Some (block, body_lines) =>
            match decode_block 0 block ∅ ∅ with
            | None => inl (ParserError "could not decode the metadata block")
            | Some (h, d) => inr (h, d, Py.join nl body_lines)
            end
        end
      else inr (∅, ∅, text)
  | [] => inr (∅, ∅, text)
  end.

Definition encode_value (h : store) (v : value) : string :=
  match v with
  | VStr s => "'" +:+ s +:+ "'"
  | VBool true => "true"
  | VBool false => "false"
  | VNone => ""
  | VList r => "[" +:+ Py.join ", " (deref h r) +:+ "]"
  end.

(** Modelled from the spec: the serialiser of a document, which the
    source imports from the [frontmatter] package: the marker line,
    one line per field, the marker line, the body. *)
Definition dumps (h : store) (d : dict) (body : string) : exn + string :=
  inr ("---" +:+ nl
       +:+ String.concat ""
             (map (fun kv => fst kv +:+ ": " +:+ encode_value h (snd kv) +:+ nl)
                (map_to_list d))
       +:+ "---" +:+ nl +:+ body).

End Reference.

(** ** The words of the spec, for the statements *)



(** The hint that enumerates [arg1] to [argN]. *)
Fixpoint enumerate_args (n : nat) : list string :=
  match n with
  | O => []
  | S k => enumerate_args k ++ ["[arg" +:+ Py.str_of_nat (S k) +:+ "]"]
  end.

(** ** Vocabulary of the statements and of the proofs *)

Import Validator.

(** The string, or comma-joined sequence, that allowed-tools holds. *)
Definition tools_text (h : store) (v : value) : option string :=
  match v with
  | VStr s => Some s
  | VList r => Some (Py.join ", " (deref h r))
  | _ => None
  end.

(** The messages the statements name. *)
Definition empty_msg : string := "'description' field is empty".
Definition long_msg : string :=
  "'description' is very long (>200 chars). Consider shortening.".
Definition bash_msg : string :=
  "Bash commands found but 'Bash' not in allowed-tools".

(** A computation of the validator that never raises. *)
Definition no_raise (c : M unit) : Prop := forall r, snd (c r) = inr tt.

(** A computation of the validator that adds no error [e] and no
    warning [w], and does not make an invalid result valid again. *)
Definition silent_on (e w : string) (c : M unit) : Prop :=
  forall r,
    count_occ string_dec (errors (fst (c r))) e = count_occ string_dec (errors r) e
    /\ count_occ string_dec (warnings (fst (c r))) w
       = count_occ string_dec (warnings r) w
    /\ (is_valid r = false -> is_valid (fst (c r)) = false).

(** A message that is neither of the two about the description:
    [Hw] and [He] are the lemmas for a warning and for an error. *)
Ltac other_message_with Hw He :=
  first [ apply Hw | apply He ]; cbn; discriminate.

(** *** The scan for the capability name as an automaton

    The state is the number of characters of the name read last. *)

Inductive bash_state : Type := B0 | B1 | B2 | B3 | B4.

Definition bash_step (q : bash_state) (c : ascii) : bash_state :=
  match q with
  | B4 => B4
  | _ =>
      if Ascii.eqb "B"%char c then B1
      else
        match q with
        | B1 => if Ascii.eqb "a"%char c then B2 else B0
        | B2 => if Ascii.eqb "s"%char c then B3 else B0
        | B3 => if Ascii.eqb "h"%char c then B4 else B0
        | _ => B0
        end
  end.

Fixpoint bash_run (q : bash_state) (s : string) : bash_state :=
  match s with
  | EmptyString => q
  | String c s' => bash_run (bash_step q c) s'
  end.

Definition accepting (q : bash_state) : bool :=
  match q with
  | B4 => true
  | _ => false
  end.

(** What is still to be read in state [q]. *)
Definition pending (q : bash_state) : string :=
  match q with
  | B0 => "Bash"
  | B1 => "ash"
  | B2 => "sh"
  | B3 => "h"
  | B4 => ""
  end.

(** Replaces the comparisons of two given characters by their value. *)
Ltac eval_closed_eqb :=
  repeat match goal with
    | |- context [Ascii.eqb ?a ?b] =>
        let v := eval vm_compute in (Ascii.eqb a b) in
        match v with
        | true => change (Ascii.eqb a b) with true
        | false => change (Ascii.eqb a b) with false
        end
    end.

(** *** Documents used as examples *)

(** A list-typed allowed-tools and a body with a marker. *)
Definition c3_store : store := {[ 0%nat := ["Edit"] ]}.
Definition c3_metadata : dict := {[ "allowed-tools" := VList 0 ]}.
Definition c3_body : string := "Run !`ls` first".


(** A sequence with an item that only contains the name. *)
Definition c9_text : string :=
  "---" +:+ nl +:+ "allowed-tools: [Edit, BashOutput]" +:+ nl
  +:+ "---" +:+ nl +:+ "Show !`git status` now" +:+ nl.

(** A marker with allowed-tools that does not name the capability. *)
Definition c6_text : string :=
  "---" +:+ nl +:+ "description: Deploy the site" +:+ nl
  +:+ "allowed-tools: Edit, Read" +:+ nl
  +:+ "---" +:+ nl +:+ "Run !`make deploy` first" +:+ nl.

(** A marker and no allowed-tools field. *)
Definition c6_undeclared_text : string :=
  "---" +:+ nl +:+ "description: Deploy the site" +:+ nl
  +:+ "---" +:+ nl +:+ "Run !`make deploy` first" +:+ nl.


(** A document with three fixes to apply, and what is written. *)
Definition c1_text : string :=
  "---" +:+ nl +:+ "description: [Deploy, the site]" +:+ nl
  +:+ "allowed-tools: Edit" +:+ nl
  +:+ "---" +:+ nl +:+ "Run !`make deploy` on $1" +:+ nl.

Definition c1_fixed_text : string :=
  "---" +:+ nl +:+ "argument-hint: '[arg1]'" +:+ nl
  +:+ "allowed-tools: 'Edit, Bash'" +:+ nl
  +:+ "description: 'Deploy the site'" +:+ nl
  +:+ "---" +:+ nl +:+ "Run !`make deploy` on $1" +:+ nl.

Definition c1_fixed_metadata : dict :=
  {[ "description" := VStr "Deploy the site";
     "allowed-tools" := VStr "Edit, Bash";
     "argument-hint" := VStr "[arg1]" ]}.

(** Metadata blocks that are not decoded and hold no bracket. *)
Definition c1_broken_text : string :=
  "---" +:+ nl +:+ "description: 'Deploy the site" +:+ nl
  +:+ "---" +:+ nl +:+ "Run the deploy script" +:+ nl.

Definition c8_text : string :=
  "---" +:+ nl +:+ "description: Deploy the site" +:+ nl
  +:+ "allowed-tools: 'Edit" +:+ nl
  +:+ "---" +:+ nl +:+ "Run the deploy script" +:+ nl.

(** A block with an unclosed bracket, which the repair quotes. *)
Definition repair_text : string :=
  "---" +:+ nl +:+ "description: [Deploy the site" +:+ nl
  +:+ "---" +:+ nl +:+ "Run the deploy script" +:+ nl.

(** *** Vocabulary of the further properties *)

(** The verdict of a result agrees with its errors. *)
Definition consistent (r : ValidationResult) : Prop :=
  is_valid r = negb (nonempty (errors r)).

(** A computation of the validator that keeps the path of the result,
    keeps a consistent result consistent, and keeps the warnings made
    so far. *)
Definition steady (c : M unit) : Prop :=
  forall r,
    file_path (fst (c r)) = file_path r
    /\ (consistent r -> consistent (fst (c r)))
    /\ (forall x, In x (warnings r) -> In x (warnings (fst (c r)))).

(** A text without its first [n] characters. *)
Fixpoint drop_chars (n : nat) (s : string) : string :=
  match n, s with
  | O, _ => s
  | S n', String _ s' => drop_chars n' s'
  | S _, EmptyString => ""
  end.

(** Lookups in a dictionary after insertions at literal keys. *)
Ltac lookup_inserted :=
  repeat first [ rewrite lookup_insert_eq | rewrite lookup_insert_ne by done ].

(** The warning of [_validate_arguments] about a missing hint. *)
Definition args_msg : string :=
  "Arguments detected but no 'argument-hint' in frontmatter".

(** The loop of [_validate_allowed_tools] over the tools. *)
Definition tools_loop (tools : list string) : M unit :=
  fold_right
    (fun tool rest =>
       let tool := Py.strip tool in
       (if String.eqb tool "" then ret tt
        else when (negb (tool_pattern_match tool))
               (add_warning ("Tool '" +:+ tool +:+ "' may not be a valid tool name")))
       ;; rest)
    (ret tt) tools.

(** One step of the loop of [fix_all]. *)
Definition fix_all_step
    (loads : string -> exn + (store * dict * string))
    (dumps : store -> dict -> string -> exn + string) (dry_run : bool)
    (st : gmap string string * list (string * list string)) (file_path : string)
  : gmap string string * list (string * list string) :=
  let '(fs, fixes_applied) := st in
  let '(fs, fixes) := Fixer.fix_file loads dumps dry_run fs file_path in
  if nonempty fixes then (fs, fixes_applied ++ [(file_path, fixes)])
  else (fs, fixes_applied).

(** Files used as examples. *)
Definition readme_text : string :=
  "---" +:+ nl +:+ "description: [About, the commands]" +:+ nl
  +:+ "---" +:+ nl +:+ "Run !`ls` on $1" +:+ nl.

(** A document whose allowed-tools is a boolean. *)
Definition flag_text : string :=
  "---" +:+ nl +:+ "description: [Deploy, the site]" +:+ nl
  +:+ "allowed-tools: true" +:+ nl
  +:+ "---" +:+ nl +:+ "Run !`make deploy`" +:+ nl.

Definition example_files : gmap string string :=
  {[ "commands/README.md" := readme_text;
     "commands/deploy.md" := c1_text;
     "commands/broken.md" := c1_broken_text;
     "commands/clean.md" := c1_fixed_text ]}.

Definition example_listing : list string :=
  [ "commands/README.md"; "commands/deploy.md"; "commands/broken.md";
    "commands/clean.md" ].

(** * Properties *)

(** ** The primitives on examples *)

Example py_contains_ex : Py.contains "Bash" "Edit, Bash(git:*)" = true.
Proof. reflexivity. Qed.

Example py_join_ex : Py.join ", " ["Edit"; "Bash"] = "Edit, Bash".
Proof. reflexivity. Qed.

Example py_strip_ex : Py.strip "  a b  " = "a b".
Proof. reflexivity. Qed.

Example py_split_ex : Py.split_comma "Read, Edit," = ["Read"; " Edit"; ""].
Proof. reflexivity. Qed.

Example py_int_ex : Py.int "007" = 7%nat.
Proof. reflexivity. Qed.

Example py_str_of_nat_ex : Py.str_of_nat 12 = "12".
Proof. reflexivity. Qed.

Example py_repr_ex : Py.str_of_list ["Edit"; "a\b"] = "['Edit', 'a\\b']".
Proof. reflexivity. Qed.

Example findall_positional_ex :
  findall_positional "use $1 and $30, not $x or $" = ["1"; "30"].
Proof. reflexivity. Qed.

Example findall_bash_ex :
  findall_bash "run !`ls -l` then !`a !`b` and !``" = ["ls -l"; "a !"].
Proof. reflexivity. Qed.

Example quote_bracket_lines_ex1 :
  Fixer.quote_bracket_lines ("allowed-tools: [Edit, Bash" +:+ nl +:+ "model: x")
  = ("allowed-tools: " +:+ String Py.dquote "[Edit, Bash" +:+ String Py.dquote ""
     +:+ nl +:+ "model: x",
     ["Quoted square brackets in 'allowed-tools' field"]).
Proof. vm_compute. reflexivity. Qed.

(** The whitespace after the colon runs over the line break. *)
Example quote_bracket_lines_ex2 :
  Fixer.quote_bracket_lines ("a: " +:+ nl +:+ "b: [x")
  = ("a: " +:+ String Py.dquote "b: [x" +:+ String Py.dquote "",
     ["Quoted square brackets in 'a' field"]).
Proof. vm_compute. reflexivity. Qed.

Example quote_bracket_lines_ex3 :
  Fixer.quote_bracket_lines ("key-1:  'q[x]'" +:+ nl +:+ "-a: [b]" +:+ nl +:+ "a:")
  = ("key-1:  'q[x]'" +:+ nl +:+ "-a: [b]" +:+ nl +:+ "a:", []).
Proof. vm_compute. reflexivity. Qed.

(** The repair path of [fix_file]: the first parse fails, the bracket
    is quoted, the second parse succeeds and the file is written. *)
Example fix_file_repair_ex :
  match Reference.loads repair_text with inl _ => true | inr _ => false end = true
  /\ Fixer.fix_file Reference.loads Reference.dumps false
       {[ "deploy.md" := repair_text ]} "deploy.md"
     = ({[ "deploy.md" :=
             "---" +:+ nl +:+ "description: '[Deploy the site'" +:+ nl
             +:+ "---" +:+ nl +:+ "Run the deploy script" +:+ nl ]},
        ["Quoted square brackets in 'description' field"]).
Proof. split; vm_compute; reflexivity. Qed.

(** ** Facts about the string primitives *)

Lemma startswith_app (p s : string) : Py.startswith p (p +:+ s) = true.
Proof.
  induction p as [|c p IH]; simpl; [done|].
  by rewrite Ascii.eqb_refl, IH.
Qed.

Lemma substring_all (s : string) : String.substring 0 (String.length s) s = s.
Proof. induction s as [|d s IHs]; simpl; [done|]. by rewrite IHs. Qed.

Lemma startswith_split (p s : string) :
  Py.startswith p s = true ->
  s = p +:+ String.substring (String.length p) (String.length s - String.length p) s.
Proof.
  revert s. induction p as [|c p IH]; intros s H; simpl in *.
  - by rewrite Nat.sub_0_r, substring_all.
  - destruct s as [|d s]; [done|]. simpl.
    apply andb_true_iff in H as [Hc Hp].
    apply Ascii.eqb_eq in Hc as ->. change (String d p +:+ ?x) with (String d (p +:+ x)). f_equal. by apply IH.
Qed.

Lemma startswith_contains (p s : string) :
  Py.startswith p s = true -> Py.contains p s = true.
Proof. intros H. destruct s; simpl in *; by rewrite H. Qed.

Lemma contains_app_r (p a b : string) :
  Py.contains p b = true -> Py.contains p (a +:+ b) = true.
Proof.
  intros H. induction a as [|c a IH]; simpl; [done|].
  rewrite IH. apply orb_true_r.
Qed.

Lemma startswith_refl (p : string) : Py.startswith p p = true.
Proof.
  induction p as [|c p IH]; simpl; [done|]. by rewrite Ascii.eqb_refl, IH.
Qed.

Lemma contains_self_suffix (p a : string) : Py.contains p (a +:+ p) = true.
Proof. apply contains_app_r, startswith_contains, startswith_refl. Qed.

(** *** The automaton scans for the capability name *)

Lemma bash_step_spec (q : bash_state) (c : ascii) (s : string) :
  Py.startswith (pending (bash_step q c)) s || Py.contains "Bash" s
  = Py.startswith (pending q) (String c s) || Py.contains "Bash" (String c s).
Proof.
  change (Py.contains "Bash" (String c s))
    with (Ascii.eqb "B"%char c && Py.startswith "ash" s || Py.contains "Bash" s).
  assert (Hc : Py.startswith "Bash" s = true -> Py.contains "Bash" s = true)
    by apply startswith_contains.
  destruct q; cbn [bash_step];
    [ change (Py.startswith (pending B0) (String c s))
        with (Ascii.eqb "B"%char c && Py.startswith "ash" s)
    | change (Py.startswith (pending B1) (String c s))
        with (Ascii.eqb "a"%char c && Py.startswith "sh" s)
    | change (Py.startswith (pending B2) (String c s))
        with (Ascii.eqb "s"%char c && Py.startswith "h" s)
    | change (Py.startswith (pending B3) (String c s))
        with (Ascii.eqb "h"%char c && true)
    | change (Py.startswith (pending B4) (String c s)) with true ];
    destruct (Ascii.eqb_spec "B"%char c) as [<-|HB];
    try (destruct (Ascii.eqb_spec "a"%char c) as [<-|Ha]);
    try (destruct (Ascii.eqb_spec "s"%char c) as [<-|Hs]);
    try (destruct (Ascii.eqb_spec "h"%char c) as [<-|Hh]);
    try discriminate;
    eval_closed_eqb;
    cbn [pending];
    change (Py.startswith "" s) with true;
    revert Hc;
    generalize (Py.startswith "Bash" s) (Py.startswith "ash" s)
      (Py.startswith "sh" s) (Py.startswith "h" s) (Py.contains "Bash" s);
    intros x0 x1 x2 x3 y Hc;
    destruct x0, x1, x2, x3, y; try reflexivity;
    discriminate (Hc eq_refl).
Qed.

Lemma bash_run_spec (s : string) (q : bash_state) :
  accepting (bash_run q s) = Py.startswith (pending q) s || Py.contains "Bash" s.
Proof.
  revert q. induction s as [|c s IH]; intros q.
  - by destruct q.
  - cbn [bash_run]. by rewrite IH, bash_step_spec.
Qed.

Lemma contains_bash_run (s : string) :
  Py.contains "Bash" s = accepting (bash_run B0 s).
Proof.
  rewrite bash_run_spec. simpl pending.
  destruct (Py.startswith "Bash" s) eqn:E; [|done].
  by rewrite (startswith_contains _ _ E).
Qed.

Lemma bash_run_app (a b : string) (q : bash_state) :
  bash_run q (a +:+ b) = bash_run (bash_run q a) b.
Proof. revert q. induction a as [|c a IH]; intros q; simpl; [done|apply IH]. Qed.

Lemma bash_run_accepted (s : string) : bash_run B4 s = B4.
Proof. induction s as [|c s IH]; simpl; [done|apply IH]. Qed.

Lemma bash_run_accepting_mono (s : string) (q : bash_state) :
  accepting q = true -> accepting (bash_run q s) = true.
Proof. destruct q; try discriminate. intros _. by rewrite bash_run_accepted. Qed.

(** The separator of a joined list brings the scan back to its start. *)
Lemma bash_run_join (l : list string) :
  accepting (bash_run B0 (Py.join ", " l))
  = existsb (fun x => accepting (bash_run B0 x)) l.
Proof.
  induction l as [|x l IH]; [done|].
  cbn [existsb]. rewrite <- IH. clear IH.
  destruct l as [|y l]; [simpl; by rewrite orb_false_r|].
  change (Py.join ", " (x :: y :: l)) with (x +:+ ", " +:+ Py.join ", " (y :: l)).
  rewrite !bash_run_app.
  destruct (bash_run B0 x); simpl bash_run at 2; cbn [accepting orb]; try done.
  by rewrite bash_run_accepted.
Qed.

Lemma contains_bash_join (l : list string) :
  Py.contains "Bash" (Py.join ", " l) = existsb (Py.contains "Bash") l.
Proof.
  rewrite contains_bash_run, bash_run_join.
  induction l as [|x l IH]; [done|]. simpl. by rewrite IH, contains_bash_run.
Qed.

(** An escape sequence of [repr] holds no capital letter, and the
    characters it replaces are none of the name. *)
Lemma bash_run_repr_char (qc c : ascii) (q : bash_state) :
  qc = Py.squote \/ qc = Py.dquote ->
  bash_run q (Py.repr_char qc c) = bash_step q c.
Proof.
  intros [-> | ->];
    destruct c as [[] [] [] [] [] [] [] []]; destruct q; reflexivity.
Qed.

Lemma bash_run_repr_body (qc : ascii) (s : string) (q : bash_state) :
  qc = Py.squote \/ qc = Py.dquote ->
  bash_run q (Py.repr_body qc s) = bash_run q s.
Proof.
  intros Hq. revert q. induction s as [|c s IH]; intros q; [done|].
  cbn [Py.repr_body bash_run].
  by rewrite bash_run_app, bash_run_repr_char, IH.
Qed.

Lemma repr_quote_cases (s : string) :
  Py.repr_quote s = Py.squote \/ Py.repr_quote s = Py.dquote.
Proof. unfold Py.repr_quote. destruct (_ && _); auto. Qed.

Lemma bash_run_repr (s : string) :
  accepting (bash_run B0 (Py.repr s)) = accepting (bash_run B0 s).
Proof.
  unfold Py.repr. pose proof (repr_quote_cases s) as Hq.
  set (qc := Py.repr_quote s) in *.
  cbn [bash_run].
  replace (bash_step B0 qc) with B0 by (by destruct Hq as [-> | ->]).
  rewrite bash_run_app, bash_run_repr_body by done.
  cbn [bash_run].
  destruct Hq as [-> | ->]; by destruct (bash_run B0 s).
Qed.

(** [str] of a list names the capability exactly when the joined list
    does. *)
Lemma contains_bash_str_of_list (l : list string) :
  Py.contains "Bash" (Py.str_of_list l) = Py.contains "Bash" (Py.join ", " l).
Proof.
  rewrite contains_bash_join, contains_bash_run. unfold Py.str_of_list.
  change ("[" +:+ ?x) with (String "["%char x).
  cbn [bash_run]. change (bash_step B0 "[") with B0.
  rewrite bash_run_app.
  transitivity (accepting (bash_run B0 (Py.join ", " (map Py.repr l)))).
  { by destruct (bash_run B0 (Py.join ", " (map Py.repr l))). }
  rewrite bash_run_join.
  induction l as [|x l IH]; [done|].
  cbn [map existsb]. by rewrite IH, bash_run_repr, contains_bash_run.
Qed.

(** ** The auto-fixer *)

Lemma has_key_false (d : dict) (k : string) : has_key d k = false -> d !! k = None.
Proof. unfold has_key. by destruct (d !! k). Qed.

Lemma has_key_true (d : dict) (k : string) : has_key d k = true -> is_Some (d !! k).
Proof. unfold has_key. destruct (d !! k); [eauto|done]. Qed.

Lemma enumerate_args_seq (n : nat) :
  map (fun i => "[arg" +:+ Py.str_of_nat i +:+ "]") (seq 1 n) = enumerate_args n.
Proof.
  induction n as [|n IH]; [done|].
  rewrite seq_S, map_app, IH. done.
Qed.

(** The two coercions of [_fix_metadata] leave every other field as it
    is and add no field. *)
Lemma fix_metadata_other (h : store) (metadata : dict) (body k : string) :
  k <> "description" -> k <> "argument-hint" ->
  fst (Fixer._fix_metadata h metadata body) !! k = metadata !! k.
Proof.
  intros Hd Ha. unfold Fixer._fix_metadata.
  destruct (metadata !! "description") as [[]|] eqn:Ed;
    cbn beta iota zeta;
    rewrite ?lookup_insert_ne by done;
    destruct (metadata !! "argument-hint") as [[]|] eqn:Ea;
    cbn beta iota zeta;
    repeat match goal with
      | |- context [if ?b then _ else _] => destruct b
      end;
    cbn [fst]; rewrite ?lookup_insert_ne by done; done.
Qed.

(** With positional markers, no catch-all marker and no hint, the hint
    enumerates up to the largest index and the fix is recorded last. *)
Lemma fix_metadata_positional (h : store) (metadata : dict) (body : string) :
  has_key metadata "argument-hint" = false ->
  Py.contains "$ARGUMENTS" body = false ->
  nonempty (findall_positional body) = true ->
  let max_arg := max_list (map Py.int (findall_positional body)) in
  exists d fixes,
    Fixer._fix_metadata h metadata body
    = (<["argument-hint" := VStr (Py.join " " (enumerate_args max_arg))]> d,
       fixes ++ ["Added argument-hint for positional arguments ($1-$"
                 +:+ Py.str_of_nat max_arg +:+ ")"]).
Proof.
  intros Hk Harg Hpos max_arg. apply has_key_false in Hk.
  unfold Fixer._fix_metadata.
  destruct (metadata !! "description") as [[]|] eqn:Ed;
    cbn beta iota zeta;
    rewrite ?lookup_insert_ne by done;
    rewrite Hk; cbn beta iota zeta;
    rewrite Harg, Hpos; unfold has_key;
    rewrite ?lookup_insert_ne by done;
    rewrite Hk; cbn [orb andb negb];
    rewrite enumerate_args_seq; eauto.
Qed.

Lemma apply_fixes_eq (h : store) (metadata : dict) (body : string)
    (fixes0 : list string) :
  Fixer.apply_fixes h metadata body fixes0
  = let new_metadata := fst (Fixer._fix_metadata h metadata body) in
    let fixes := fixes0 ++ snd (Fixer._fix_metadata h metadata body) in
    match Fixer._check_bash_permissions h metadata body with
    | inl e => inl (e, fixes)
    | inr bash_fixes =>
        if nonempty bash_fixes then
          inr (fst (Fixer._add_bash_to_allowed_tools h new_metadata),
               snd (Fixer._add_bash_to_allowed_tools h new_metadata),
               fixes ++ bash_fixes)
        else inr (h, new_metadata, fixes)
    end.
Proof.
  unfold Fixer.apply_fixes.
  destruct (Fixer._fix_metadata h metadata body) as [nm mf]. cbn [fst snd].
  destruct (Fixer._check_bash_permissions h metadata body) as [e|bf]; [done|].
  destruct (nonempty bf); [|done].
  by destruct (Fixer._add_bash_to_allowed_tools h nm).
Qed.

Lemma add_bash_other (h : store) (d : dict) (k : string) :
  k <> "allowed-tools" ->
  snd (Fixer._add_bash_to_allowed_tools h d) !! k = d !! k.
Proof.
  intros Hk. unfold Fixer._add_bash_to_allowed_tools.
  destruct (d !! "allowed-tools") as [[]|]; cbn [snd];
    by rewrite lookup_insert_ne.
Qed.

(** A field other than the three the fixer writes is the same in the
    new metadata. *)
Lemma apply_fixes_field (h h' : store) (metadata new_metadata : dict)
    (body : string) (fixes0 fixes : list string) (k : string) :
  Fixer.apply_fixes h metadata body fixes0 = inr (h', new_metadata, fixes) ->
  k <> "allowed-tools" ->
  new_metadata !! k = fst (Fixer._fix_metadata h metadata body) !! k.
Proof.
  rewrite apply_fixes_eq. cbn zeta. intros H Hk.
  destruct (Fixer._check_bash_permissions h metadata body) as [e|bf]; [done|].
  destruct (nonempty bf); inversion H; subst; [|done].
  by apply add_bash_other.
Qed.

(** The permission check when the body holds a shell-execution marker. *)
Lemma check_bash_with_marker (h : store) (metadata : dict) (body : string) :
  nonempty (findall_bash body) = true ->
  Fixer._check_bash_permissions h metadata body
  = match metadata !! "allowed-tools" with
    | None => inr ["Bash commands found but no allowed-tools defined"]
    | Some (VStr s) =>
        inr (if Py.contains "Bash" s then []
             else ["Bash commands found but Bash not in allowed-tools"])
    | Some (VList r) =>
        inr (if Py.contains "Bash" (Py.join ", " (deref h r)) then []
             else ["Bash commands found but Bash not in allowed-tools"])
    | Some (VBool _) => inl (TypeError "argument of type 'bool' is not iterable")
    | Some VNone => inl (TypeError "argument of type 'NoneType' is not iterable")
    end.
Proof.
  intros Hm. unfold Fixer._check_bash_permissions. rewrite Hm. cbn [negb].
  destruct (metadata !! "allowed-tools") as [[s|b| |r]|]; try done.
  - by destruct (Py.contains "Bash" s).
  - by destruct (Py.contains "Bash" (Py.join ", " (deref h r))).
Qed.

Lemma deref_insert (h : store) (r : ref) (l : list string) :
  deref (<[r := l]> h) r = l.
Proof. unfold deref. by rewrite lookup_insert_eq. Qed.

(** *** C3: the input metadata is mutated through a shared list *)

(** C3 (the code departs from the claim).  The claim: applying the
    auto-fixer leaves the metadata of the input document unchanged,
    a list-typed allowed-tools included.  At the input whose
    allowed-tools is the list holding Edit and whose body has a
    shell-execution marker, the input metadata reads Edit before the
    pass and Edit, Bash after it: the copy made by the fixer shares
    the list, and the append is done in place. *)
Theorem fixer_mutates_input_list :
  resolve c3_store c3_metadata !! "allowed-tools" = Some (DSeq ["Edit"])
  /\ match Fixer.apply_fixes c3_store c3_metadata c3_body [] with
     | inr (h', _, _) => resolve h' c3_metadata !! "allowed-tools"
     | inl _ => None
     end = Some (DSeq ["Edit"; "Bash"]).
Proof. split; vm_compute; reflexivity. Qed.

(** *** C5: the hint for positional markers *)

(** C5.  With no argument-hint field, no catch-all marker and at least
    one positional marker in the body, the new metadata of
    [_fix_metadata], and of every pass that completes, has the
    argument-hint that enumerates arg1 to argN in brackets, N the
    largest index found; when the markers found are 1 and 3 the hint
    is [arg1] [arg2] [arg3]. *)
Theorem positional_hint_synthesis (h : store) (metadata : dict) (body : string) :
  has_key metadata "argument-hint" = false ->
  Py.contains "$ARGUMENTS" body = false ->
  nonempty (findall_positional body) = true ->
  let N := max_list (map Py.int (findall_positional body)) in
  let hint := VStr (Py.join " " (enumerate_args N)) in
  fst (Fixer._fix_metadata h metadata body) !! "argument-hint" = Some hint
  /\ (forall fixes0 h' new_metadata fixes,
        Fixer.apply_fixes h metadata body fixes0 = inr (h', new_metadata, fixes) ->
        new_metadata !! "argument-hint" = Some hint)
  /\ (findall_positional body = ["1"; "3"] -> hint = VStr "[arg1] [arg2] [arg3]").
Proof.
  intros Hk Harg Hpos N hint.
  destruct (fix_metadata_positional h metadata body Hk Harg Hpos) as (d & fx & E).
  assert (H1 : fst (Fixer._fix_metadata h metadata body) !! "argument-hint"
               = Some hint).
  { rewrite E. cbn [fst]. by rewrite lookup_insert_eq. }
  split; [exact H1|]. split.
  - intros fixes0 h' nm fixes Hap.
    by rewrite (apply_fixes_field _ _ _ _ _ _ _ "argument-hint" Hap).
  - intros E13. subst hint N. by rewrite E13.
Qed.

Lemma positional_hint_synthesis_witness :
  (has_key ∅ "argument-hint" = false
   /\ Py.contains "$ARGUMENTS" "compare $1 with $3" = false
   /\ nonempty (findall_positional "compare $1 with $3") = true)
  /\ fst (Fixer._fix_metadata ∅ ∅ "compare $1 with $3") !! "argument-hint"
     = Some (VStr "[arg1] [arg2] [arg3]").
Proof.
  split; [repeat split; reflexivity|].
  exact (proj1 (positional_hint_synthesis ∅ ∅ "compare $1 with $3"
                  eq_refl eq_refl eq_refl)).
Defined.

(** *** C10: only the marker of index zero *)

(** C10.  With no argument-hint field, no catch-all marker, and
    positional markers whose largest index is 0, [_fix_metadata] sets
    argument-hint to the empty string and records the fix. *)
Theorem zero_index_hint (h : store) (metadata : dict) (body : string) :
  has_key metadata "argument-hint" = false ->
  Py.contains "$ARGUMENTS" body = false ->
  nonempty (findall_positional body) = true ->
  max_list (map Py.int (findall_positional body)) = 0%nat ->
  fst (Fixer._fix_metadata h metadata body) !! "argument-hint" = Some (VStr "")
  /\ In "Added argument-hint for positional arguments ($1-$0)"
       (snd (Fixer._fix_metadata h metadata body)).
Proof.
  intros Hk Harg Hpos Hmax.
  destruct (fix_metadata_positional h metadata body Hk Harg Hpos) as (d & fx & E).
  rewrite E, Hmax. cbn [fst snd]. split.
  - by rewrite lookup_insert_eq.
  - apply in_or_app. right. by left.
Qed.

Lemma zero_index_hint_witness :
  (has_key ∅ "argument-hint" = false
   /\ Py.contains "$ARGUMENTS" "the script is $0" = false
   /\ nonempty (findall_positional "the script is $0") = true
   /\ max_list (map Py.int (findall_positional "the script is $0")) = 0%nat)
  /\ fst (Fixer._fix_metadata ∅ ∅ "the script is $0") !! "argument-hint"
     = Some (VStr "")
  /\ In "Added argument-hint for positional arguments ($1-$0)"
       (snd (Fixer._fix_metadata ∅ ∅ "the script is $0")).
Proof.
  split; [repeat split; reflexivity|].
  exact (zero_index_hint ∅ ∅ "the script is $0" eq_refl eq_refl eq_refl eq_refl).
Defined.

(** *** C4: the permission fix *)

Lemma contains_bash_member (l : list string) :
  In "Bash" l -> Py.contains "Bash" (Py.join ", " l) = true.
Proof.
  intros Hin. rewrite contains_bash_join. apply existsb_exists.
  exists "Bash". split; [exact Hin|reflexivity].
Qed.



(** ** The validator *)

Lemma bind_run (c1 c2 : M unit) (r : ValidationResult) :
  (c1 ;; c2) r
  = match c1 r with
    | (r', inr _) => c2 r'
    | (r', inl e) => (r', inl e)
    end.
Proof. reflexivity. Qed.

Lemma bind_no_raise (c1 c2 : M unit) (r : ValidationResult) :
  no_raise c1 -> (c1 ;; c2) r = c2 (fst (c1 r)).
Proof.
  intros H. rewrite bind_run. specialize (H r).
  destruct (c1 r) as [r' [e|[]]]; simpl in *; congruence.
Qed.

Lemma no_raise_bind (c1 c2 : M unit) :
  no_raise c1 -> no_raise c2 -> no_raise (c1 ;; c2).
Proof. intros H1 H2 r. rewrite bind_no_raise by done. apply H2. Qed.

Lemma no_raise_when (b : bool) (c : M unit) : no_raise c -> no_raise (when b c).
Proof. intros H. by destruct b. Qed.

Lemma no_raise_ret : no_raise (ret tt).
Proof. done. Qed.

Lemma no_raise_add_error (msg : string) : no_raise (add_error msg).
Proof. done. Qed.

Lemma no_raise_add_warning (msg : string) : no_raise (add_warning msg).
Proof. done. Qed.

Lemma no_raise_add_info (msg : string) : no_raise (add_info msg).
Proof. done. Qed.

Lemma no_raise_set_invalid : no_raise set_invalid.
Proof. done. Qed.

Create HintDb validator.

#[local] Hint Resolve no_raise_bind no_raise_when no_raise_ret no_raise_add_error
  no_raise_add_warning no_raise_add_info no_raise_set_invalid : validator.

Lemma silent_bind (e w : string) (c1 c2 : M unit) :
  silent_on e w c1 -> silent_on e w c2 -> silent_on e w (c1 ;; c2).
Proof.
  intros H1 H2 r. rewrite bind_run. specialize (H1 r).
  destruct (c1 r) as [r' [x|[]]]; cbn [fst] in *; [done|].
  destruct (H2 r') as (He & Hw & Hv). destruct H1 as (He1 & Hw1 & Hv1).
  repeat split; [congruence|congruence|auto].
Qed.

Lemma silent_when (e w : string) (b : bool) (c : M unit) :
  silent_on e w c -> silent_on e w (when b c).
Proof. intros H. by destruct b. Qed.

Lemma silent_ret (e w : string) : silent_on e w (ret tt).
Proof. done. Qed.

Lemma silent_raise (e w : string) (x : exn) : silent_on e w (raise x).
Proof. done. Qed.

Lemma silent_add_info (e w msg : string) : silent_on e w (add_info msg).
Proof. done. Qed.

Lemma silent_set_invalid (e w : string) : silent_on e w set_invalid.
Proof. done. Qed.

Lemma count_occ_snoc_ne (l : list string) (x y : string) :
  x <> y -> count_occ string_dec (l ++ [x]) y = count_occ string_dec l y.
Proof.
  intros H. rewrite count_occ_app. cbn.
  destruct (string_dec x y); [done|lia].
Qed.

Lemma count_occ_snoc_eq (l : list string) (x : string) :
  count_occ string_dec (l ++ [x]) x = S (count_occ string_dec l x).
Proof.
  rewrite count_occ_app. cbn. destruct (string_dec x x); [lia|done].
Qed.

Lemma silent_add_error (e w msg : string) :
  msg <> e -> silent_on e w (add_error msg).
Proof. intros H r. cbn. by rewrite count_occ_snoc_ne. Qed.

Lemma silent_add_warning (e w msg : string) :
  msg <> w -> silent_on e w (add_warning msg).
Proof. intros H r. cbn. by rewrite count_occ_snoc_ne. Qed.

#[local] Hint Resolve silent_bind silent_when silent_ret silent_raise
  silent_add_info silent_set_invalid : validator.

Lemma tools_loop_facts (tools : list string) :
  let loop :=
    fold_right
      (fun tool rest =>
         let tool := Py.strip tool in
         (if String.eqb tool "" then ret tt
          else when (negb (tool_pattern_match tool))
                 (add_warning ("Tool '" +:+ tool +:+ "' may not be a valid tool name")))
         ;; rest)
      (ret tt) tools in
  no_raise loop /\ silent_on empty_msg long_msg loop.
Proof.
  induction tools as [|t tools [IH1 IH2]]; cbn zeta; [by split|].
  cbn [fold_right]. split.
  - apply no_raise_bind; [|exact IH1].
    destruct (String.eqb _ _); auto with validator.
  - apply silent_bind; [|exact IH2].
    destruct (String.eqb _ _); [auto with validator|].
    apply silent_when. other_message_with silent_add_warning silent_add_error.
Qed.

Lemma validate_allowed_tools_facts (h : store) (v : value) :
  no_raise (_validate_allowed_tools h v)
  /\ silent_on empty_msg long_msg (_validate_allowed_tools h v).
Proof.
  unfold _validate_allowed_tools. destruct v; try apply tools_loop_facts.
  all: split; auto with validator;
    (apply silent_bind; [other_message_with silent_add_warning silent_add_error|auto with validator]).
Qed.

Lemma check_unknown_fields_facts (metadata : dict) :
  no_raise (check_unknown_fields metadata)
  /\ silent_on empty_msg long_msg (check_unknown_fields metadata).
Proof.
  unfold check_unknown_fields. split; [auto with validator|].
  apply silent_when. other_message_with silent_add_warning silent_add_error.
Qed.

Lemma check_allowed_tools_facts (h : store) (metadata : dict) :
  no_raise (check_allowed_tools h metadata)
  /\ silent_on empty_msg long_msg (check_allowed_tools h metadata).
Proof.
  unfold check_allowed_tools. destruct (metadata !! "allowed-tools").
  - apply validate_allowed_tools_facts.
  - split; auto with validator.
Qed.

Lemma check_model_silent (h : store) (metadata : dict) :
  silent_on empty_msg long_msg (check_model h metadata).
Proof.
  unfold check_model.
  destruct (metadata !! "model") as [[]|]; auto with validator;
    apply silent_when; other_message_with silent_add_warning silent_add_error.
Qed.

Lemma check_model_outcome (h : store) (metadata : dict) (r : ValidationResult) :
  snd (check_model h metadata r) = inr tt
  \/ snd (check_model h metadata r) = inl (TypeError "unhashable type: 'list'").
Proof.
  unfold check_model.
  destruct (metadata !! "model") as [[]|]; auto;
    left; apply no_raise_when; auto with validator.
Qed.

Lemma check_argument_hint_facts (h : store) (metadata : dict) :
  no_raise (check_argument_hint h metadata)
  /\ silent_on empty_msg long_msg (check_argument_hint h metadata).
Proof.
  unfold check_argument_hint.
  destruct (metadata !! "argument-hint"); split; auto with validator.
  apply silent_when. other_message_with silent_add_warning silent_add_error.
Qed.

Lemma check_disable_model_invocation_facts (metadata : dict) :
  no_raise (check_disable_model_invocation metadata)
  /\ silent_on empty_msg long_msg (check_disable_model_invocation metadata).
Proof.
  unfold check_disable_model_invocation.
  destruct (metadata !! "disable-model-invocation") as [[]|];
    split; auto with validator;
    (apply silent_bind; [other_message_with silent_add_warning silent_add_error|auto with validator]).
Qed.


Lemma count_occ_snoc (l : list string) (x y : string) :
  count_occ string_dec (l ++ [x]) y
  = (count_occ string_dec l y + if String.eqb x y then 1 else 0)%nat.
Proof.
  destruct (String.eqb_spec x y) as [->|Hne].
  - rewrite count_occ_snoc_eq. lia.
  - rewrite count_occ_snoc_ne by done. lia.
Qed.

(** The description block, exactly. *)
Lemma check_description_run (h : store) (metadata : dict) (d : value)
    (r : ValidationResult) :
  metadata !! "description" = Some d ->
  let desc := Py.strip (joined_str h d) in
  check_description h metadata r
  = (if String.eqb desc "" then
       mkResult (file_path r) false (errors r ++ [empty_msg]) (warnings r) (info r)
     else if (200 <? String.length desc)%nat then
       mkResult (file_path r) (is_valid r) (errors r) (warnings r ++ [long_msg])
         (info r)
     else r,
     inr tt).
Proof.
  intros Hd desc. unfold check_description. rewrite Hd. fold desc.
  destruct (String.eqb desc ""); [done|].
  destruct (200 <? String.length desc)%nat; [done|]. by destruct r.
Qed.

(** *** C7: the diagnostics of the description *)

(** C7 (as amended).  When the description field is present, the
    validator adds the error that the description is empty exactly
    when the stripped description is the empty string, and then the
    result is invalid; it adds the warning that the description is
    very long exactly when the stripped description is not empty and
    has more than 200 characters.  No other length gives a
    diagnostic: there is no lower threshold. *)
Theorem description_diagnostics (h : store) (metadata : dict) (d : value)
    (r : ValidationResult) :
  metadata !! "description" = Some d ->
  let desc := Py.strip (joined_str h d) in
  let r' := fst (_validate_frontmatter h metadata r) in
  count_occ string_dec (errors r') "'description' field is empty"
  = (count_occ string_dec (errors r) "'description' field is empty"
     + if String.eqb desc "" then 1 else 0)%nat
  /\ count_occ string_dec (warnings r')
       "'description' is very long (>200 chars). Consider shortening."
     = (count_occ string_dec (warnings r)
          "'description' is very long (>200 chars). Consider shortening."
        + if negb (String.eqb desc "") && (200 <? String.length desc)%nat
          then 1 else 0)%nat
  /\ (String.eqb desc "" = true -> is_valid r' = false).
Proof.
  intros Hd desc r'. subst r'.
  change "'description' field is empty" with empty_msg.
  change "'description' is very long (>200 chars). Consider shortening."
    with long_msg.
  unfold _validate_frontmatter.
  assert (Hne : bool_decide (metadata = ∅) = false).
  { apply bool_decide_eq_false. intros ->. by rewrite lookup_empty in Hd. }
  rewrite Hne.
  rewrite bind_no_raise by apply check_unknown_fields_facts.
  destruct (proj2 (check_unknown_fields_facts metadata) r) as (He0 & Hw0 & _).
  set (r1 := fst (check_unknown_fields metadata r)) in *.
  rewrite bind_run, (check_description_run h metadata d r1 Hd). fold desc.
  cbv iota beta.
  match goal with
  | |- context [(?c1 ;; ?c2) ?x] =>
      assert (Hs : silent_on empty_msg long_msg (c1 ;; c2))
  end.
  { repeat apply silent_bind;
      first [ apply check_allowed_tools_facts | apply check_model_silent
            | apply check_argument_hint_facts
            | apply check_disable_model_invocation_facts ]. }
  match goal with
  | |- context [(?c1 ;; ?c2) ?x] => destruct (Hs x) as (He & Hw & Hv)
  end.
  rewrite He, Hw. clear He Hw.
  destruct (String.eqb desc "") eqn:Eempty; cbn [negb andb errors warnings].
  - rewrite count_occ_snoc_eq, He0, Hw0. repeat split; [lia|lia|].
    intros _. by apply Hv.
  - destruct (200 <? String.length desc)%nat; cbn [errors warnings];
      rewrite ?count_occ_snoc_eq, He0, Hw0; repeat split; try lia; done.
Qed.

Lemma description_diagnostics_witness :
  ({[ "description" := VStr "Deploy the site" ]} : dict) !! "description"
  = Some (VStr "Deploy the site")
  /\ count_occ string_dec
       (errors (fst (_validate_frontmatter ∅
                       {[ "description" := VStr "Deploy the site" ]}
                       (new_result "deploy.md"))))
       "'description' field is empty" = 0%nat.
Proof.
  split; [reflexivity|].
  exact (proj1 (description_diagnostics ∅
                  {[ "description" := VStr "Deploy the site" ]}
                  (VStr "Deploy the site") (new_result "deploy.md") eq_refl)).
Defined.

(** C7 (counterexample).  An empty description, the shortest there
    is, is an error and no warning; a description of two characters
    gets no diagnostic at all. *)
Lemma short_description_counterexample :
  (errors (fst (_validate_frontmatter ∅ {[ "description" := VStr "" ]}
                  (new_result "deploy.md")))
   = ["'description' field is empty"]
   /\ warnings (fst (_validate_frontmatter ∅ {[ "description" := VStr "" ]}
                       (new_result "deploy.md"))) = []
   /\ is_valid (fst (_validate_frontmatter ∅ {[ "description" := VStr "" ]}
                       (new_result "deploy.md"))) = false)
  /\ (errors (fst (_validate_frontmatter ∅ {[ "description" := VStr "hi" ]}
                     (new_result "deploy.md"))) = []
      /\ warnings (fst (_validate_frontmatter ∅ {[ "description" := VStr "hi" ]}
                          (new_result "deploy.md"))) = []).
Proof. repeat split; vm_compute; reflexivity. Qed.

(** A body with a shell-execution marker is not blank. *)
Lemma findall_bash_has_bang (s : string) (skip : nat) :
  nonempty (findall_bash_from skip s) = true -> Py.has_char "!"%char s = true.
Proof.
  revert skip. induction s as [|c s IH]; intros skip H; [done|].
  cbn [findall_bash_from] in H. cbn [Py.has_char].
  destruct skip as [|k].
  - destruct (match_bash (String c s)) as [[g n]|] eqn:Em.
    + unfold match_bash in Em. destruct s as [|c2 s]; [done|].
      destruct (Ascii.eqb c "!"%char) eqn:Ec; [|done].
      apply Ascii.eqb_eq in Ec as ->. done.
    + rewrite (IH _ H). apply orb_true_r.
  - rewrite (IH _ H). apply orb_true_r.
Qed.

Lemma rstrip_nonspace (c : ascii) (s : string) :
  Py.isspace c = false -> String.eqb (Py.rstrip (String c s)) "" = false.
Proof.
  intros Hc. cbn [Py.rstrip]. rewrite Hc. by destruct (Py.rstrip s).
Qed.

Lemma strip_has_nonspace (c : ascii) (s : string) :
  Py.isspace c = false -> Py.has_char c s = true ->
  String.eqb (Py.strip s) "" = false.
Proof.
  intros Hc. unfold Py.strip. induction s as [|b s IH]; [done|].
  cbn [Py.has_char Py.lstrip]. intros H.
  destruct (Py.isspace b) eqn:Eb; [|by apply rstrip_nonspace].
  apply IH. destruct (Ascii.eqb_spec c b) as [->|_]; [congruence|done].
Qed.

Lemma marker_body_not_blank (body : string) :
  nonempty (findall_bash body) = true ->
  String.eqb body "" || String.eqb (Py.strip body) "" = false.
Proof.
  intros H. apply findall_bash_has_bang in H.
  rewrite (strip_has_nonspace "!"%char body eq_refl H), orb_false_r.
  by destruct body.
Qed.

(** The arguments check touches neither the errors nor the verdict. *)
Lemma validate_arguments_quiet (metadata : dict) (body : string)
    (r : ValidationResult) :
  snd (_validate_arguments metadata body r) = inr tt
  /\ errors (fst (_validate_arguments metadata body r)) = errors r
  /\ is_valid (fst (_validate_arguments metadata body r)) = is_valid r.
Proof.
  unfold _validate_arguments.
  destruct (Py.contains "$ARGUMENTS" body), (nonempty (findall_positional body)),
    (has_key metadata "argument-hint"); done.
Qed.

Section Content.

Variable loads : string -> exn + (store * dict * string).
Variables (fs : gmap string string) (path text : string).
Variables (h : store) (metadata : dict) (body0 : string).
Hypothesis Hfile : fs !! path = Some text.
Hypothesis Hloads : loads text = inr (h, metadata, body0).

(** The content check on a body with a marker, when the file declares
    allowed-tools. *)
Lemma validate_content_declared (body : string) (v : value)
    (r : ValidationResult) :
  nonempty (findall_bash body) = true ->
  metadata !! "allowed-tools" = Some v ->
  snd (_validate_content loads fs body path r) = inr tt
  /\ errors (fst (_validate_content loads fs body path r))
     = errors r ++ (if Py.contains "Bash" (py_str h v) then [] else [bash_msg])
  /\ is_valid (fst (_validate_content loads fs body path r))
     = (if Py.contains "Bash" (py_str h v) then is_valid r else false).
Proof.
  intros Hm Hv. unfold _validate_content, _get_frontmatter_from_file.
  rewrite (marker_body_not_blank _ Hm), Hm, Hfile, Hloads, Hv.
  assert (Hne : bool_decide (metadata = ∅) = false).
  { apply bool_decide_eq_false. intros E. by rewrite E, lookup_empty in Hv. }
  rewrite Hne. cbn [when]. fold bash_msg.
  destruct (Py.contains "Bash" (py_str h v));
    destruct (0 <? count_file_refs body)%nat;
    destruct (existsb _ thinking_keywords);
    cbn; rewrite ?app_nil_r; done.
Qed.

(** The content check on a body with a marker, when the file does not
    declare allowed-tools. *)
Lemma validate_content_undeclared (body : string) (r : ValidationResult) :
  nonempty (findall_bash body) = true ->
  metadata !! "allowed-tools" = None ->
  snd (_validate_content loads fs body path r) = inr tt
  /\ errors (fst (_validate_content loads fs body path r)) = errors r
  /\ is_valid (fst (_validate_content loads fs body path r)) = is_valid r.
Proof.
  intros Hm Hv. unfold _validate_content, _get_frontmatter_from_file.
  rewrite (marker_body_not_blank _ Hm), Hm, Hfile, Hloads, Hv.
  cbn [when].
  destruct (bool_decide (metadata = ∅));
    destruct (0 <? count_file_refs body)%nat;
    destruct (existsb _ thinking_keywords);
    cbn; done.
Qed.

End Content.

Lemma validate_frontmatter_outcome (h : store) (metadata : dict)
    (r : ValidationResult) :
  snd (_validate_frontmatter h metadata r) = inr tt
  \/ snd (_validate_frontmatter h metadata r)
     = inl (TypeError "unhashable type: 'list'").
Proof.
  unfold _validate_frontmatter.
  destruct (bool_decide (metadata = ∅)); [by left|].
  rewrite bind_no_raise by apply check_unknown_fields_facts.
  rewrite bind_no_raise.
  2:{ unfold check_description. destruct (metadata !! "description").
      - destruct (String.eqb _ _); auto with validator.
      - auto with validator. }
  rewrite bind_no_raise by apply check_allowed_tools_facts.
  rewrite bind_run.
  match goal with
  | |- context [check_model h metadata ?x] =>
      destruct (check_model_outcome h metadata x) as [E|E];
      destruct (check_model h metadata x) as [r' [e|[]]];
      cbn [snd] in E; try discriminate
  end.
  - left.
    apply no_raise_bind;
      [apply check_argument_hint_facts|apply check_disable_model_invocation_facts].
  - right. cbn [snd]. done.
Qed.

Lemma tools_text_str (h : store) (v : value) (joined : string) :
  tools_text h v = Some joined ->
  Py.contains "Bash" (py_str h v) = Py.contains "Bash" joined.
Proof.
  destruct v; cbn; intros E; inversion E; subst; [done|].
  apply contains_bash_str_of_list.
Qed.

(** *** C9: the capability is declared when the name is a substring *)

(** C9.  For a body with a shell-execution marker and a file whose
    allowed-tools is a string or a sequence, the permission check of
    the fixer returns no record, and the content check of the
    validator adds no error, exactly when the string (the sequence
    joined with commas) holds Bash as a substring; otherwise each
    reports its one message. *)
Theorem bash_declared_iff_substring
    (loads : string -> exn + (store * dict * string))
    (fs : gmap string string) (path text : string)
    (h : store) (metadata : dict) (body0 body : string) (v : value)
    (joined : string) (r : ValidationResult) :
  fs !! path = Some text ->
  loads text = inr (h, metadata, body0) ->
  nonempty (findall_bash body) = true ->
  metadata !! "allowed-tools" = Some v ->
  tools_text h v = Some joined ->
  Fixer._check_bash_permissions h metadata body
  = inr (if Py.contains "Bash" joined then []
         else ["Bash commands found but Bash not in allowed-tools"])
  /\ errors (fst (_validate_content loads fs body path r))
     = errors r
       ++ (if Py.contains "Bash" joined then []
           else ["Bash commands found but 'Bash' not in allowed-tools"]).
Proof.
  intros Hfile Hloads Hm Hv Ht. split.
  - rewrite (check_bash_with_marker _ _ _ Hm), Hv.
    destruct v; cbn in Ht; inversion Ht; subst; done.
  - destruct (validate_content_declared loads fs path text h metadata body0
                Hfile Hloads body v r Hm Hv) as (_ & He & _).
    by rewrite He, (tools_text_str _ _ _ Ht).
Qed.

Lemma bash_declared_iff_substring_witness :
  (({[ "cmd.md" := c9_text ]} : gmap string string) !! "cmd.md" = Some c9_text
   /\ Reference.loads c9_text
      = inr ({[ 0%nat := ["Edit"; "BashOutput"] ]},
             {[ "allowed-tools" := VList 0 ]},
             "Show !`git status` now" +:+ nl)
   /\ nonempty (findall_bash ("Show !`git status` now" +:+ nl)) = true)
  /\ Fixer._check_bash_permissions {[ 0%nat := ["Edit"; "BashOutput"] ]}
       {[ "allowed-tools" := VList 0 ]} ("Show !`git status` now" +:+ nl)
     = inr []
  /\ errors (fst (_validate_content Reference.loads {[ "cmd.md" := c9_text ]}
                    ("Show !`git status` now" +:+ nl) "cmd.md"
                    (new_result "cmd.md"))) = [].
Proof.
  split; [repeat split; vm_compute; reflexivity|].
  exact (bash_declared_iff_substring Reference.loads {[ "cmd.md" := c9_text ]}
           "cmd.md" c9_text {[ 0%nat := ["Edit"; "BashOutput"] ]}
           {[ "allowed-tools" := VList 0 ]} ("Show !`git status` now" +:+ nl)
           ("Show !`git status` now" +:+ nl) (VList 0) "Edit, BashOutput"
           (new_result "cmd.md") eq_refl eq_refl eq_refl eq_refl eq_refl).
Defined.

(** *** C6: the validator and an undeclared capability *)

(** C6 (as amended).  For a document whose body holds a
    shell-execution marker: when allowed-tools is present and its
    string form does not hold Bash, the validator reports the document
    as invalid, with the error that Bash is not in allowed-tools (or,
    when the model field is a list, with the unexpected error that
    ends the validation before the content is checked); when
    allowed-tools is absent, the content check and the arguments
    check add no error, so the errors are those of the metadata
    checks. *)
Theorem validator_flags_undeclared_capability
    (loads : string -> exn + (store * dict * string))
    (fs : gmap string string) (path text : string)
    (h : store) (metadata : dict) (body : string) :
  fs !! path = Some text ->
  loads text = inr (h, metadata, body) ->
  nonempty (findall_bash body) = true ->
  (forall v,
     metadata !! "allowed-tools" = Some v ->
     Py.contains "Bash" (py_str h v) = false ->
     is_valid (validate_file loads fs path) = false
     /\ (In "Bash commands found but 'Bash' not in allowed-tools"
           (errors (validate_file loads fs path))
         \/ In "Unexpected error: unhashable type: 'list'"
              (errors (validate_file loads fs path))))
  /\ (metadata !! "allowed-tools" = None ->
      snd (_validate_frontmatter h metadata (new_result path)) = inr tt ->
      errors (validate_file loads fs path)
      = errors (fst (_validate_frontmatter h metadata (new_result path)))
      /\ is_valid (validate_file loads fs path)
         = is_valid (fst (_validate_frontmatter h metadata (new_result path)))).
Proof.
  intros Hfile Hloads Hm. unfold validate_file. rewrite Hfile, Hloads.
  rewrite bind_run.
  pose proof (validate_frontmatter_outcome h metadata (new_result path)) as Ho.
  destruct (_validate_frontmatter h metadata (new_result path)) as [r1 o] eqn:Er1.
  cbn [fst snd] in *. split.
  - intros v Hv Hno. destruct Ho as [-> | ->].
    + rewrite bind_run.
      destruct (validate_content_declared loads fs path text h metadata body
                  Hfile Hloads body v r1 Hm Hv) as (Hs & He & Hi).
      rewrite Hno in He, Hi.
      destruct (_validate_content loads fs body path r1) as [r2 o2].
      cbn [fst snd] in *. subst o2.
      destruct (validate_arguments_quiet metadata body r2) as (Hs3 & He3 & Hi3).
      destruct (_validate_arguments metadata body r2) as [r3 o3].
      cbn [fst snd] in *. subst o3.
      split; [congruence|]. left. rewrite He3, He.
      apply in_or_app. right. by left.
    + cbn. split; [done|]. right. apply in_or_app. right. by left.
  - intros Hv Hok. rewrite Hok in *. rewrite bind_run.
    destruct (validate_content_undeclared loads fs path text h metadata body
                Hfile Hloads body r1 Hm Hv) as (Hs & He & Hi).
    destruct (_validate_content loads fs body path r1) as [r2 o2].
    cbn [fst snd] in *. subst o2.
    destruct (validate_arguments_quiet metadata body r2) as (Hs3 & He3 & Hi3).
    destruct (_validate_arguments metadata body r2) as [r3 o3].
    cbn [fst snd] in *. subst o3. split; congruence.
Qed.

Lemma validator_flags_undeclared_capability_witness :
  (({[ "deploy.md" := c6_text ]} : gmap string string) !! "deploy.md"
   = Some c6_text
   /\ Reference.loads c6_text
      = inr (∅, {[ "description" := VStr "Deploy the site";
                   "allowed-tools" := VStr "Edit, Read" ]},
             "Run !`make deploy` first" +:+ nl)
   /\ nonempty (findall_bash ("Run !`make deploy` first" +:+ nl)) = true)
  /\ is_valid (validate_file Reference.loads {[ "deploy.md" := c6_text ]}
                 "deploy.md") = false.
Proof.
  split; [repeat split; vm_compute; reflexivity|].
  exact (proj1 (proj1 (validator_flags_undeclared_capability Reference.loads
                         {[ "deploy.md" := c6_text ]} "deploy.md" c6_text ∅
                         {[ "description" := VStr "Deploy the site";
                            "allowed-tools" := VStr "Edit, Read" ]}
                         ("Run !`make deploy` first" +:+ nl)
                         eq_refl eq_refl eq_refl)
                  (VStr "Edit, Read") eq_refl eq_refl)).
Defined.

(** C6 (counterexample).  A document with a shell-execution marker
    and no allowed-tools field is reported as valid, with no error. *)
Lemma undeclared_capability_counterexample :
  (exists h metadata body,
     Reference.loads c6_undeclared_text = inr (h, metadata, body)
     /\ nonempty (findall_bash body) = true
     /\ metadata !! "allowed-tools" = None)
  /\ errors (validate_file Reference.loads {[ "deploy.md" := c6_undeclared_text ]}
               "deploy.md") = []
  /\ is_valid (validate_file Reference.loads
                 {[ "deploy.md" := c6_undeclared_text ]} "deploy.md") = true.
Proof.
  split; [|split; vm_compute; reflexivity].
  eexists _, _, _. split; [vm_compute; reflexivity|]. split; reflexivity.
Qed.


(** ** The file level *)




Section FileFacts.

Variable loads : string -> exn + (store * dict * string).
Variable dumps : store -> dict -> string -> exn + string.


(** *** C2: an opening marker and no closing marker *)


End FileFacts.


(** *** Two documents that read the same *)

Lemma resolve_lookup (h1 h2 : store) (d1 d2 : dict) (k : string) :
  resolve h1 d1 = resolve h2 d2 ->
  resolve_value h1 <$> d1 !! k = resolve_value h2 <$> d2 !! k.
Proof.
  intros E. unfold resolve in E.
  by rewrite <- !lookup_fmap, E.
Qed.

(** What [_fix_metadata] leaves behind: no list under the two string
    fields, and a hint whenever the body uses arguments. *)
Lemma fix_metadata_normal (h : store) (metadata : dict) (body : string) :
  let new_metadata := fst (Fixer._fix_metadata h metadata body) in
  (forall r, new_metadata !! "description" <> Some (VList r))
  /\ (forall r, new_metadata !! "argument-hint" <> Some (VList r))
  /\ (Py.contains "$ARGUMENTS" body || nonempty (findall_positional body) = true ->
      has_key new_metadata "argument-hint" = true).
Proof.
  unfold Fixer._fix_metadata, has_key.
  destruct (metadata !! "description") as [[]|] eqn:Ed;
    cbn beta iota zeta;
    rewrite ?lookup_insert_ne by done;
    destruct (metadata !! "argument-hint") as [[]|] eqn:Ea;
    cbn beta iota zeta;
    unfold has_key;
    rewrite ?lookup_insert_eq, ?lookup_insert_ne by done;
    rewrite ?Ea; cbn [negb andb];
    rewrite ?andb_false_r, ?andb_true_r;
    destruct (Py.contains "$ARGUMENTS" body);
    destruct (nonempty (findall_positional body));
    cbn [orb fst];
    rewrite ?lookup_insert_eq, ?lookup_insert_ne by done;
    rewrite ?lookup_insert_eq, ?lookup_insert_ne by done;
    rewrite ?Ed, ?Ea; repeat split; intros; congruence.
Qed.

(** On such metadata [_fix_metadata] has nothing to do. *)
Lemma fix_metadata_noop (h : store) (metadata : dict) (body : string) :
  (forall r, metadata !! "description" <> Some (VList r)) ->
  (forall r, metadata !! "argument-hint" <> Some (VList r)) ->
  (Py.contains "$ARGUMENTS" body || nonempty (findall_positional body) = true ->
   has_key metadata "argument-hint" = true) ->
  Fixer._fix_metadata h metadata body = (metadata, []).
Proof.
  intros Hd Ha Hk. unfold Fixer._fix_metadata.
  destruct (metadata !! "description") as [[]|] eqn:Ed;
    try (by destruct (Hd _ eq_refl));
    cbn beta iota zeta;
    destruct (metadata !! "argument-hint") as [[]|] eqn:Ea;
    try (by destruct (Ha _ eq_refl));
    cbn beta iota zeta;
    destruct (Py.contains "$ARGUMENTS" body || nonempty (findall_positional body));
    cbn [andb]; try done;
    rewrite (Hk eq_refl); done.
Qed.

Lemma resolve_value_list (h1 h2 : store) (v1 v2 : value) :
  resolve_value h1 v1 = resolve_value h2 v2 ->
  (exists r, v1 = VList r) -> exists r, v2 = VList r.
Proof. intros E [r ->]. destruct v2; try discriminate. eauto. Qed.

Lemma resolve_tools_text (h1 h2 : store) (v1 v2 : value) :
  resolve_value h1 v1 = resolve_value h2 v2 ->
  tools_text h1 v1 = tools_text h2 v2.
Proof. destruct v1, v2; cbn; intros E; inversion E; done. Qed.

Lemma contains_bash_appended (l : list string) :
  Py.contains "Bash" (Py.join ", " (l ++ ["Bash"])) = true.
Proof. apply contains_bash_member, in_or_app. right. by left. Qed.

(** After a pass that completes on a body with a marker, the new
    metadata declares the capability. *)
Lemma apply_fixes_declares (h h' : store) (metadata new_metadata : dict)
    (body : string) (fixes0 fixes : list string) :
  Fixer.apply_fixes h metadata body fixes0 = inr (h', new_metadata, fixes) ->
  nonempty (findall_bash body) = true ->
  exists v joined,
    new_metadata !! "allowed-tools" = Some v
    /\ tools_text h' v = Some joined
    /\ Py.contains "Bash" joined = true.
Proof.
  intros Hap Hm. rewrite apply_fixes_eq in Hap. cbn zeta in Hap.
  rewrite (check_bash_with_marker _ _ _ Hm) in Hap.
  pose proof (fix_metadata_other h metadata body "allowed-tools"
                ltac:(done) ltac:(done)) as Hnm.
  unfold Fixer._add_bash_to_allowed_tools in Hap. rewrite Hnm in Hap.
  destruct (metadata !! "allowed-tools") as [[s|b| |r]|] eqn:Et; try done.
  - destruct (Py.contains "Bash" s) eqn:Ec; cbn in Hap; inversion Hap; subst.
    + exists (VStr s), s. by rewrite Hnm.
    + eexists _, _. rewrite lookup_insert_eq. split; [done|]. split; [done|].
      apply contains_app_r. reflexivity.
  - destruct (Py.contains "Bash" (Py.join ", " (deref h r))) eqn:Ec;
      cbn in Hap; inversion Hap; subst.
    + exists (VList r), (Py.join ", " (deref h' r)). by rewrite Hnm.
    + eexists _, _. rewrite lookup_insert_eq. split; [done|]. cbn.
      split; [done|]. rewrite deref_insert. apply contains_bash_appended.
  - cbn in Hap. inversion Hap; subst.
    eexists _, _. rewrite lookup_insert_eq. split; [done|]. by split.
Qed.

(** A document that reads as the result of a completed pass needs no
    fix. *)
Lemma apply_fixes_stable (h h' h2 : store) (metadata new_metadata m2 : dict)
    (body : string) (fixes0 fixes : list string) :
  Fixer.apply_fixes h metadata body fixes0 = inr (h', new_metadata, fixes) ->
  resolve h2 m2 = resolve h' new_metadata ->
  Fixer.apply_fixes h2 m2 body [] = inr (h2, m2, []).
Proof.
  intros Hap Hres.
  destruct (fix_metadata_normal h metadata body) as (Hd & Ha & Hk).
  cbn zeta in Hd, Ha, Hk.
  rewrite <- (apply_fixes_field _ _ _ _ _ _ _ "description" Hap) in Hd by done.
  rewrite <- (apply_fixes_field _ _ _ _ _ _ _ "argument-hint" Hap) in Ha by done.
  unfold has_key in Hk.
  rewrite <- (apply_fixes_field _ _ _ _ _ _ _ "argument-hint" Hap) in Hk by done.
  assert (Hfm : Fixer._fix_metadata h2 m2 body = (m2, [])).
  { apply fix_metadata_noop.
    - intros r E. pose proof (resolve_lookup _ _ _ _ "description" Hres) as Hl.
      rewrite E in Hl. destruct (new_metadata !! "description") as [v|] eqn:Ev;
        [|done].
      cbn in Hl. inversion Hl as [Hv].
      destruct (resolve_value_list h2 h' (VList r) v Hv) as [r' ->]; [eauto|].
      by destruct (Hd r').
    - intros r E. pose proof (resolve_lookup _ _ _ _ "argument-hint" Hres) as Hl.
      rewrite E in Hl. destruct (new_metadata !! "argument-hint") as [v|] eqn:Ev;
        [|done].
      cbn in Hl. inversion Hl as [Hv].
      destruct (resolve_value_list h2 h' (VList r) v Hv) as [r' ->]; [eauto|].
      by destruct (Ha r').
    - intros Hargs. specialize (Hk Hargs). unfold has_key.
      pose proof (resolve_lookup _ _ _ _ "argument-hint" Hres) as Hl.
      destruct (new_metadata !! "argument-hint"); [|done].
      by destruct (m2 !! "argument-hint"). }
  assert (Hck : Fixer._check_bash_permissions h2 m2 body = inr []).
  { destruct (nonempty (findall_bash body)) eqn:Hm.
    - destruct (apply_fixes_declares _ _ _ _ _ _ _ Hap Hm)
        as (v & joined & Hv & Ht & Hc).
      pose proof (resolve_lookup _ _ _ _ "allowed-tools" Hres) as Hl.
      rewrite Hv in Hl. destruct (m2 !! "allowed-tools") as [v2|] eqn:Ev2;
        [|done].
      cbn in Hl. inversion Hl as [Hrv].
      rewrite <- (resolve_tools_text _ _ _ _ Hrv) in Ht.
      rewrite (check_bash_with_marker _ _ _ Hm), Ev2.
      destruct v2; cbn in Ht; inversion Ht; subst; by rewrite Hc.
    - unfold Fixer._check_bash_permissions. by rewrite Hm. }
  rewrite apply_fixes_eq. cbn zeta. by rewrite Hck, Hfm.
Qed.

(** *** C1: a second pass *)

(** C1 (as amended).  When the first pass parses the document
    (directly or after the syntax repair), completes without an
    unexpected error and writes the file, and the parser reads the
    written text back as the document that was written, a second pass
    on the written file returns no record and leaves the file as it
    is.  When the first pass returns no record it writes nothing. *)
Theorem second_pass_after_clean_pass
    (loads : string -> exn + (store * dict * string))
    (dumps : store -> dict -> string -> exn + string)
    (fs : gmap string string) (path content : string)
    (h h' h2 : store) (metadata new_metadata m2 : dict) (body : string)
    (fixes0 fixes : list string) (new_content : string) :
  fs !! path = Some content ->
  Fixer.parse_with_repair loads content
  = inr (h, metadata, body, fixes0) ->
  Fixer.apply_fixes h metadata body fixes0 = inr (h', new_metadata, fixes) ->
  dumps h' new_metadata body = inr new_content ->
  loads new_content = inr (h2, m2, body) ->
  resolve h2 m2 = resolve h' new_metadata ->
  let fs1 := if nonempty fixes then <[path := new_content]> fs else fs in
  Fixer.fix_file loads dumps false fs path = (fs1, fixes)
  /\ (nonempty fixes = true ->
      Fixer.fix_file loads dumps false fs1 path = (fs1, [])).
Proof.
  intros Hfile Hparse Hap Hdump Hback Hres fs1. split.
  - unfold Fixer.fix_file. rewrite Hfile, Hparse, Hap. subst fs1.
    destruct (nonempty fixes); [by rewrite Hdump|done].
  - intros Hne. subst fs1. rewrite Hne.
    unfold Fixer.fix_file, Fixer.parse_with_repair.
    rewrite lookup_insert_eq, Hback.
    by rewrite (apply_fixes_stable _ _ _ _ _ _ _ _ _ Hap Hres).
Qed.

Lemma second_pass_after_clean_pass_witness :
  (Fixer.parse_with_repair Reference.loads c1_text
   = inr ({[ 0%nat := ["Deploy"; "the site"] ]},
          {[ "description" := VList 0; "allowed-tools" := VStr "Edit" ]},
          "Run !`make deploy` on $1" +:+ nl, [])
   /\ Fixer.apply_fixes {[ 0%nat := ["Deploy"; "the site"] ]}
        {[ "description" := VList 0; "allowed-tools" := VStr "Edit" ]}
        ("Run !`make deploy` on $1" +:+ nl) []
      = inr ({[ 0%nat := ["Deploy"; "the site"] ]}, c1_fixed_metadata,
             ["Converted description from list to string";
              "Added argument-hint for positional arguments ($1-$1)";
              "Bash commands found but Bash not in allowed-tools"])
   /\ Reference.dumps {[ 0%nat := ["Deploy"; "the site"] ]} c1_fixed_metadata
        ("Run !`make deploy` on $1" +:+ nl) = inr c1_fixed_text
   /\ Reference.loads c1_fixed_text
      = inr (∅, c1_fixed_metadata, "Run !`make deploy` on $1" +:+ nl)
   /\ resolve ∅ c1_fixed_metadata
      = resolve {[ 0%nat := ["Deploy"; "the site"] ]} c1_fixed_metadata)
  /\ Fixer.fix_file Reference.loads Reference.dumps
       false {[ "deploy.md" := c1_fixed_text ]} "deploy.md"
     = ({[ "deploy.md" := c1_fixed_text ]}, []).
Proof.
  split; [repeat split; vm_compute; reflexivity|].
  pose proof (second_pass_after_clean_pass Reference.loads Reference.dumps {[ "deploy.md" := c1_text ]}
                "deploy.md" c1_text
                {[ 0%nat := ["Deploy"; "the site"] ]}
                {[ 0%nat := ["Deploy"; "the site"] ]} ∅
                {[ "description" := VList 0; "allowed-tools" := VStr "Edit" ]}
                c1_fixed_metadata c1_fixed_metadata
                ("Run !`make deploy` on $1" +:+ nl) []
                ["Converted description from list to string";
                 "Added argument-hint for positional arguments ($1-$1)";
                 "Bash commands found but Bash not in allowed-tools"]
                c1_fixed_text
                eq_refl ltac:(vm_compute; reflexivity)
                ltac:(vm_compute; reflexivity) ltac:(vm_compute; reflexivity)
                ltac:(vm_compute; reflexivity) ltac:(vm_compute; reflexivity))
    as [_ H2].
  specialize (H2 eq_refl). cbv zeta in H2. cbn [nonempty] in H2.
  rewrite insert_singleton_eq in H2. exact H2.
Defined.

(** C1 (counterexample).  A metadata block with an unclosed quote is
    not decoded and the repair has nothing to quote in it: the pass
    returns the record of the parse failure and writes nothing, and
    the second pass, on the same text, returns that record again. *)
Lemma second_pass_counterexample :
  Fixer.fix_file Reference.loads Reference.dumps false
    {[ "deploy.md" := c1_broken_text ]} "deploy.md"
  = ({[ "deploy.md" := c1_broken_text ]},
     ["Could not parse frontmatter: could not decode the metadata block"])
  /\ snd (Fixer.fix_file Reference.loads Reference.dumps
            false
            (fst (Fixer.fix_file Reference.loads Reference.dumps false
                    {[ "deploy.md" := c1_broken_text ]} "deploy.md"))
            "deploy.md")
     = ["Could not parse frontmatter: could not decode the metadata block"].
Proof. split; vm_compute; reflexivity. Qed.

(** *** C8: the records and what is written *)

Lemma string_length_app (a b : string) :
  String.length (a +:+ b) = (String.length a + String.length b)%nat.
Proof. induction a as [|c a IH]; [done|]. simpl. by f_equal. Qed.

(** Either [_fix_metadata] records nothing and returns the metadata it
    was given, or a field other than allowed-tools reads differently
    in what it returns. *)
Lemma fix_metadata_records (h : store) (metadata : dict) (body : string) :
  if nonempty (snd (Fixer._fix_metadata h metadata body)) then
    exists k, k <> "allowed-tools"
      /\ forall h', resolve_value h' <$> fst (Fixer._fix_metadata h metadata body) !! k
                    <> resolve_value h <$> metadata !! k
  else fst (Fixer._fix_metadata h metadata body) = metadata.
Proof.
  unfold Fixer._fix_metadata, has_key.
  destruct (metadata !! "description") as [[]|] eqn:Ed;
    cbn beta iota zeta;
    rewrite ?lookup_insert_ne by done;
    destruct (metadata !! "argument-hint") as [[]|] eqn:Ea;
    cbn beta iota zeta;
    rewrite ?lookup_insert_eq, ?lookup_insert_ne by done;
    rewrite ?Ea; cbn [negb andb];
    rewrite ?andb_false_r, ?andb_true_r;
    destruct (Py.contains "$ARGUMENTS" body);
    destruct (nonempty (findall_positional body));
    cbn [orb fst snd nonempty app];
    try done;
    first
      [ exists "description"; split; [done|]; intros h';
        rewrite ?lookup_insert_eq, ?lookup_insert_ne by done;
        rewrite ?lookup_insert_eq, ?lookup_insert_ne by done;
        rewrite ?Ed; cbn; congruence
      | exists "argument-hint"; split; [done|]; intros h';
        rewrite ?lookup_insert_eq, ?lookup_insert_ne by done;
        rewrite ?Ea; cbn; congruence ].
Qed.

(** The permission fix makes allowed-tools read differently. *)
Lemma add_bash_changes (h : store) (d : dict) :
  resolve_value (fst (Fixer._add_bash_to_allowed_tools h d))
    <$> snd (Fixer._add_bash_to_allowed_tools h d) !! "allowed-tools"
  <> resolve_value h <$> d !! "allowed-tools".
Proof.
  unfold Fixer._add_bash_to_allowed_tools.
  destruct (d !! "allowed-tools") as [[s|b| |r]|] eqn:E; cbn [fst snd];
    rewrite lookup_insert_eq; cbn; try done.
  - intros H. inversion H as [Hs].
    apply (f_equal String.length) in Hs. rewrite string_length_app in Hs.
    cbn in Hs. lia.
  - rewrite deref_insert. intros H. inversion H as [Hs].
    apply (f_equal (@length string)) in Hs. rewrite length_app in Hs.
    cbn in Hs. lia.
Qed.

(** C8 (as amended).  On a pass that parses the document and completes
    without an unexpected error: the records returned are those of
    the syntax repair followed by the records of the fixes applied to
    the metadata, and no fix is recorded exactly when the new metadata
    reads as the old; with no record at all nothing is written; with a
    record the file is rewritten with the serialised new document
    (outside dry-run). *)
Theorem fix_records_of_clean_pass
    (loads : string -> exn + (store * dict * string))
    (dumps : store -> dict -> string -> exn + string)
    (dry_run : bool) (fs : gmap string string) (path content : string)
    (h h' : store) (metadata new_metadata : dict) (body : string)
    (fixes0 fixes : list string) :
  fs !! path = Some content ->
  Fixer.parse_with_repair loads content
  = inr (h, metadata, body, fixes0) ->
  Fixer.apply_fixes h metadata body fixes0 = inr (h', new_metadata, fixes) ->
  (exists applied,
     fixes = fixes0 ++ applied
     /\ (applied = [] <-> resolve h' new_metadata = resolve h metadata))
  /\ (nonempty fixes = false ->
      Fixer.fix_file loads dumps dry_run fs path = (fs, []))
  /\ (forall new_content,
        nonempty fixes = true ->
        dumps h' new_metadata body = inr new_content ->
        Fixer.fix_file loads dumps dry_run fs path
        = (if dry_run then fs else <[path := new_content]> fs, fixes)).
Proof.
  intros Hfile Hparse Hap. split; [|split].
  - pose proof Hap as Hap'. rewrite apply_fixes_eq in Hap'. cbn zeta in Hap'.
    pose proof (fix_metadata_records h metadata body) as Hrec.
    pose proof (fix_metadata_other h metadata body "allowed-tools"
                  ltac:(done) ltac:(done)) as Hat.
    destruct (Fixer._check_bash_permissions h metadata body) as [e|bf] eqn:Ec;
      [done|].
    set (nm0 := fst (Fixer._fix_metadata h metadata body)) in *.
    set (mf := snd (Fixer._fix_metadata h metadata body)) in *.
    clearbody nm0 mf.
    destruct (nonempty bf) eqn:Eb; inversion Hap'; subst h' new_metadata fixes.
    + exists (mf ++ bf). split; [by rewrite app_assoc|]. split.
      * intros E. apply app_eq_nil in E as [_ ->]. done.
      * intros Hres. exfalso.
        pose proof (resolve_lookup _ _ _ _ "allowed-tools" Hres) as Hl.
        revert Hl. rewrite <- Hat. apply add_bash_changes.
    + exists mf. split; [done|]. destruct bf; [|done]. split.
      * intros E. rewrite E in Hrec. cbn in Hrec. congruence.
      * intros Hres. destruct mf as [|x mf'] eqn:Emf; [done|]. exfalso.
        cbn in Hrec. destruct Hrec as (k & Hk & Hne).
        apply (Hne h). by apply resolve_lookup.
  - intros Hnil. unfold Fixer.fix_file. rewrite Hfile, Hparse, Hap, Hnil.
    by destruct fixes.
  - intros new_content Hne Hd. unfold Fixer.fix_file.
    rewrite Hfile, Hparse, Hap, Hne, Hd. by destruct dry_run.
Qed.

Lemma fix_records_of_clean_pass_witness :
  (({[ "deploy.md" := c1_text ]} : gmap string string) !! "deploy.md"
   = Some c1_text
   /\ Fixer.parse_with_repair Reference.loads c1_text
      = inr ({[ 0%nat := ["Deploy"; "the site"] ]},
             {[ "description" := VList 0; "allowed-tools" := VStr "Edit" ]},
             "Run !`make deploy` on $1" +:+ nl, [])
   /\ Fixer.apply_fixes {[ 0%nat := ["Deploy"; "the site"] ]}
        {[ "description" := VList 0; "allowed-tools" := VStr "Edit" ]}
        ("Run !`make deploy` on $1" +:+ nl) []
      = inr ({[ 0%nat := ["Deploy"; "the site"] ]}, c1_fixed_metadata,
             ["Converted description from list to string";
              "Added argument-hint for positional arguments ($1-$1)";
              "Bash commands found but Bash not in allowed-tools"])
   /\ Reference.dumps {[ 0%nat := ["Deploy"; "the site"] ]} c1_fixed_metadata
        ("Run !`make deploy` on $1" +:+ nl) = inr c1_fixed_text)
  /\ Fixer.fix_file Reference.loads Reference.dumps
       false {[ "deploy.md" := c1_text ]} "deploy.md"
     = (<["deploy.md" := c1_fixed_text]> {[ "deploy.md" := c1_text ]},
        ["Converted description from list to string";
         "Added argument-hint for positional arguments ($1-$1)";
         "Bash commands found but Bash not in allowed-tools"]).
Proof.
  split; [repeat split; vm_compute; reflexivity|].
  exact (proj2 (proj2 (fix_records_of_clean_pass Reference.loads Reference.dumps false
                         {[ "deploy.md" := c1_text ]} "deploy.md" c1_text
                         {[ 0%nat := ["Deploy"; "the site"] ]}
                         {[ 0%nat := ["Deploy"; "the site"] ]}
                         {[ "description" := VList 0;
                            "allowed-tools" := VStr "Edit" ]}
                         c1_fixed_metadata ("Run !`make deploy` on $1" +:+ nl) []
                         ["Converted description from list to string";
                          "Added argument-hint for positional arguments ($1-$1)";
                          "Bash commands found but Bash not in allowed-tools"]
                         eq_refl ltac:(vm_compute; reflexivity)
                         ltac:(vm_compute; reflexivity)))
           c1_fixed_text eq_refl ltac:(vm_compute; reflexivity)).
Defined.

(** C8 (counterexample).  A document whose metadata block is not
    decoded gets a record, the parse failure, although no fix is
    applied and nothing is written. *)
Lemma record_without_fix_counterexample :
  Fixer.fix_file Reference.loads Reference.dumps false
    {[ "deploy.md" := c8_text ]} "deploy.md"
  = ({[ "deploy.md" := c8_text ]},
     ["Could not parse frontmatter: could not decode the metadata block"]).
Proof. vm_compute; reflexivity. Qed.

(** * Further properties of the two tools *)

(** ** The fixer on one file and on a directory *)


(** X2.  [fix_file] creates no file, removes none, and leaves every
    file other than the one it is given as it is. *)
Theorem fix_file_touches_one_file
    (loads : string -> exn + (store * dict * string))
    (dumps : store -> dict -> string -> exn + string)
    (dry_run : bool) (fs : gmap string string) (path : string) :
  dom (fst (Fixer.fix_file loads dumps dry_run fs path)) = dom fs
  /\ (forall other, other <> path ->
        fst (Fixer.fix_file loads dumps dry_run fs path) !! other = fs !! other).
Proof.
  unfold Fixer.fix_file.
  destruct (fs !! path) as [content|] eqn:Hfile; [|done].
  destruct (Fixer.parse_with_repair loads content) as [fx|[[[h m] body] fx]];
    [done|].
  destruct (Fixer.apply_fixes h m body fx) as [[e f]|[[h' nm] f]]; [done|].
  destruct (nonempty f); [|done].
  destruct (dumps h' nm body) as [e|new_content]; [done|].
  destruct dry_run; [done|]. cbn [fst]. split.
  - apply dom_insert_lookup_L. by rewrite Hfile.
  - intros other Hne. by rewrite lookup_insert_ne.
Qed.

Lemma fix_file_result
    (loads : string -> exn + (store * dict * string))
    (dumps : store -> dict -> string -> exn + string)
    (dry_run : bool) (fs : gmap string string) (path : string) :
  fst (Fixer.fix_file loads dumps dry_run fs path) = fs
  \/ (dry_run = false /\ is_Some (fs !! path)
      /\ exists new_content,
           fst (Fixer.fix_file loads dumps dry_run fs path)
           = <[path := new_content]> fs).
Proof.
  unfold Fixer.fix_file.
  destruct (fs !! path) as [content|] eqn:Hfile; [|by left].
  destruct (Fixer.parse_with_repair loads content) as [fx|[[[h m] body] fx]];
    [by left|].
  destruct (Fixer.apply_fixes h m body fx) as [[e f]|[[h' nm] f]]; [by left|].
  destruct (nonempty f); [|by left].
  destruct (dumps h' nm body) as [e|new_content]; [by left|].
  destruct dry_run; [by left|]. right. eauto.
Qed.

Lemma fix_all_unfold
    (loads : string -> exn + (store * dict * string))
    (dumps : store -> dict -> string -> exn + string)
    (dry_run : bool) (listing : list string) (fs : gmap string string)
    (fixes_applied : list (string * list string)) :
  Fixer.fix_all loads dumps dry_run (Some listing) fs fixes_applied
  = Some (fold_left (fix_all_step loads dumps dry_run)
            (List.filter (fun f => negb (is_readme f)) listing)
            (fs, fixes_applied)).
Proof. reflexivity. Qed.

Lemma fix_all_step_eq
    (loads : string -> exn + (store * dict * string))
    (dumps : store -> dict -> string -> exn + string)
    (dry_run : bool) (fs : gmap string string)
    (fixes_applied : list (string * list string)) (f : string) :
  fix_all_step loads dumps dry_run (fs, fixes_applied) f
  = (fst (Fixer.fix_file loads dumps dry_run fs f),
     if nonempty (snd (Fixer.fix_file loads dumps dry_run fs f))
     then fixes_applied ++ [(f, snd (Fixer.fix_file loads dumps dry_run fs f))]
     else fixes_applied).
Proof.
  unfold fix_all_step.
  destruct (Fixer.fix_file loads dumps dry_run fs f) as [fs1 fixes].
  cbn [fst snd]. by destruct (nonempty fixes).
Qed.

(** The loop of [fix_all] over any list of files. *)
Lemma fix_all_loop
    (loads : string -> exn + (store * dict * string))
    (dumps : store -> dict -> string -> exn + string)
    (dry_run : bool) (files : list string) (fs : gmap string string)
    (fixes_applied : list (string * list string)) :
  let st := fold_left (fix_all_step loads dumps dry_run) files (fs, fixes_applied) in
  dom (fst st) = dom fs
  /\ (forall p, ~ In p files -> fst st !! p = fs !! p)
  /\ (dry_run = true -> fst st = fs)
  /\ exists new,
       snd st = fixes_applied ++ new
       /\ Forall (fun e => In (fst e) files /\ nonempty (snd e) = true) new.
Proof.
  revert fs fixes_applied.
  induction files as [|f files IH]; intros fs fa; cbn zeta.
  - cbn. repeat split; try done. exists []. by rewrite app_nil_r.
  - cbn [fold_left]. rewrite fix_all_step_eq.
    pose proof (fix_file_result loads dumps dry_run fs f) as Hres.
    destruct (Fixer.fix_file loads dumps dry_run fs f) as [fs1 fixes] eqn:E.
    cbn [fst snd] in *.
    set (fa1 := if nonempty fixes then fa ++ [(f, fixes)] else fa).
    destruct (IH fs1 fa1) as (Hd & Hp & Hr & new & Hnew & Hall). cbn zeta in *.
    assert (Hdom1 : dom fs1 = dom fs).
    { destruct Hres as [->|(_ & Hsome & nc & ->)]; [done|].
      by apply dom_insert_lookup_L. }
    assert (Hother : forall p, p <> f -> fs1 !! p = fs !! p).
    { intros p Hne. destruct Hres as [->|(_ & _ & nc & ->)]; [done|].
      by rewrite lookup_insert_ne. }
    split; [congruence|]. split; [|split].
    + intros p Hnot. rewrite Hp by (intros Hin; apply Hnot; by right).
      apply Hother. intros ->. apply Hnot. by left.
    + intros ->. rewrite Hr by done.
      by destruct Hres as [->|(Hf & _)].
    + assert (Hall' : Forall (fun e => In (fst e) (f :: files)
                                       /\ nonempty (snd e) = true) new).
      { eapply Forall_impl; [exact Hall|]. intros e [H1 H2]. split; [by right|done]. }
      subst fa1. destruct (nonempty fixes) eqn:En.
      * exists ((f, fixes) :: new). split.
        -- rewrite Hnew. by rewrite <- app_assoc.
        -- constructor; [|exact Hall']. split; [by left|exact En].
      * exists new. by split.
Qed.

(** X3.  [fix_all] leaves the README files, whatever the case of
    their name, and the files that are not in the listing as they
    are; it creates and removes no file; in a dry run it changes no
    file at all. *)
Theorem fix_all_leaves_readme_and_unlisted
    (loads : string -> exn + (store * dict * string))
    (dumps : store -> dict -> string -> exn + string)
    (dry_run : bool) (listing : list string) (fs fs' : gmap string string)
    (fixes_applied fixes_applied' : list (string * list string)) :
  Fixer.fix_all loads dumps dry_run (Some listing) fs fixes_applied
  = Some (fs', fixes_applied') ->
  dom fs' = dom fs
  /\ (forall p, is_readme p = true \/ ~ In p listing -> fs' !! p = fs !! p)
  /\ (dry_run = true -> fs' = fs).
Proof.
  rewrite fix_all_unfold. intros H. inversion H as [Hst]. clear H.
  destruct (fix_all_loop loads dumps dry_run
              (List.filter (fun f => negb (is_readme f)) listing) fs fixes_applied)
    as (Hd & Hp & Hr & _).
  cbn zeta in *. rewrite Hst in *. cbn [fst] in *.
  split; [exact Hd|]. split; [|exact Hr].
  intros p Hp'. apply Hp. intros Hin. apply filter_In in Hin as [Hin Hkeep].
  destruct Hp' as [Hre|Hnot]; [|done]. by rewrite Hre in Hkeep.
Qed.

(** X4.  [fix_all] adds to the list it returns one entry per listed
    file that is not a README and for which [fix_file] returned a
    record, and no other: every new entry names such a file and has
    at least one record. *)
Theorem fix_all_reports_files_with_records
    (loads : string -> exn + (store * dict * string))
    (dumps : store -> dict -> string -> exn + string)
    (dry_run : bool) (listing : list string) (fs fs' : gmap string string)
    (fixes_applied fixes_applied' : list (string * list string)) :
  Fixer.fix_all loads dumps dry_run (Some listing) fs fixes_applied
  = Some (fs', fixes_applied') ->
  exists new,
    fixes_applied' = fixes_applied ++ new
    /\ Forall (fun e => In (fst e) listing /\ is_readme (fst e) = false
                        /\ nonempty (snd e) = true) new.
Proof.
  rewrite fix_all_unfold. intros H. inversion H as [Hst]. clear H.
  destruct (fix_all_loop loads dumps dry_run
              (List.filter (fun f => negb (is_readme f)) listing) fs fixes_applied)
    as (_ & _ & _ & new & Hnew & Hall).
  cbn zeta in *. rewrite Hst in *. cbn [snd] in *.
  exists new. split; [exact Hnew|].
  eapply Forall_impl; [exact Hall|]. intros e [Hin Hne].
  apply filter_In in Hin as [Hin Hkeep].
  repeat split; try done. by destruct (is_readme (fst e)).
Qed.

Lemma fix_all_leaves_readme_and_unlisted_witness :
  Fixer.fix_all Reference.loads Reference.dumps false (Some example_listing)
    example_files []
  = Some (<["commands/deploy.md" := c1_fixed_text]> example_files,
          [("commands/deploy.md",
            ["Converted description from list to string";
             "Added argument-hint for positional arguments ($1-$1)";
             "Bash commands found but Bash not in allowed-tools"]);
           ("commands/broken.md",
            ["Could not parse frontmatter: could not decode the metadata block"])])
  /\ (<["commands/deploy.md" := c1_fixed_text]> example_files)
       !! "commands/README.md"
     = example_files !! "commands/README.md".
Proof.
  assert (H : Fixer.fix_all Reference.loads Reference.dumps false
                (Some example_listing) example_files []
              = Some (<["commands/deploy.md" := c1_fixed_text]> example_files,
                      [("commands/deploy.md",
                        ["Converted description from list to string";
                         "Added argument-hint for positional arguments ($1-$1)";
                         "Bash commands found but Bash not in allowed-tools"]);
                       ("commands/broken.md",
                        ["Could not parse frontmatter: could not decode the metadata block"])]))
    by (vm_compute; reflexivity).
  split; [exact H|].
  exact (proj1 (proj2 (fix_all_leaves_readme_and_unlisted _ _ _ _ _ _ _ _ H))
           "commands/README.md" (or_introl eq_refl)).
Defined.

Lemma fix_all_reports_files_with_records_witness :
  Fixer.fix_all Reference.loads Reference.dumps true (Some example_listing)
    example_files []
  = Some (example_files,
          [("commands/deploy.md",
            ["Converted description from list to string";
             "Added argument-hint for positional arguments ($1-$1)";
             "Bash commands found but Bash not in allowed-tools"]);
           ("commands/broken.md",
            ["Could not parse frontmatter: could not decode the metadata block"])])
  /\ exists new,
       [("commands/deploy.md",
         ["Converted description from list to string";
          "Added argument-hint for positional arguments ($1-$1)";
          "Bash commands found but Bash not in allowed-tools"]);
        ("commands/broken.md",
         ["Could not parse frontmatter: could not decode the metadata block"])]
       = [] ++ new
       /\ Forall (fun e => In (fst e) example_listing /\ is_readme (fst e) = false
                           /\ nonempty (snd e) = true) new.
Proof.
  assert (H : Fixer.fix_all Reference.loads Reference.dumps true
                (Some example_listing) example_files []
              = Some (example_files,
                      [("commands/deploy.md",
                        ["Converted description from list to string";
                         "Added argument-hint for positional arguments ($1-$1)";
                         "Bash commands found but Bash not in allowed-tools"]);
                       ("commands/broken.md",
                        ["Could not parse frontmatter: could not decode the metadata block"])]))
    by (vm_compute; reflexivity).
  split; [exact H|].
  exact (fix_all_reports_files_with_records _ _ _ _ _ _ _ _ H).
Defined.

(** ** The verdict of the validator *)

Lemma steady_bind (c1 c2 : M unit) : steady c1 -> steady c2 -> steady (c1 ;; c2).
Proof.
  intros H1 H2 r. rewrite bind_run. specialize (H1 r).
  destruct (c1 r) as [r' [x|[]]]; cbn [fst] in *; [done|].
  destruct (H2 r') as (Hp & Hc & Hw). destruct H1 as (Hp1 & Hc1 & Hw1).
  repeat split; [congruence|auto|auto].
Qed.

Lemma steady_when (b : bool) (c : M unit) : steady c -> steady (when b c).
Proof. intros H. by destruct b. Qed.

Lemma steady_ret : steady (ret tt).
Proof. done. Qed.

Lemma steady_raise (x : exn) : steady (raise x).
Proof. done. Qed.

Lemma steady_add_info (msg : string) : steady (add_info msg).
Proof. done. Qed.

Lemma steady_add_warning (msg : string) : steady (add_warning msg).
Proof.
  intros r. cbn. repeat split; [done|]. intros x Hx. apply in_or_app. by left.
Qed.

Lemma nonempty_snoc {A : Type} (l : list A) (x : A) : nonempty (l ++ [x]) = true.
Proof. by destruct l. Qed.

(** An error is always added together with the verdict. *)
Lemma steady_error_invalid (msg : string) : steady (add_error msg ;; set_invalid).
Proof.
  intros r. unfold mbind, M_bind, bind, add_error, set_invalid, consistent.
  cbn. by rewrite nonempty_snoc.
Qed.

Lemma steady_invalid_error (msg : string) : steady (set_invalid ;; add_error msg).
Proof.
  intros r. unfold mbind, M_bind, bind, add_error, set_invalid, consistent.
  cbn. by rewrite nonempty_snoc.
Qed.

#[local] Hint Resolve steady_bind steady_when steady_ret steady_raise
  steady_add_info steady_add_warning steady_error_invalid steady_invalid_error
  : validator.

Lemma steady_tools_loop (tools : list string) : steady (tools_loop tools).
Proof.
  induction tools as [|t tools IH]; [apply steady_ret|].
  cbn [tools_loop fold_right]. apply steady_bind; [|exact IH].
  destruct (String.eqb _ _); auto with validator.
Qed.

Lemma steady_validate_allowed_tools (h : store) (v : value) :
  steady (_validate_allowed_tools h v).
Proof.
  destruct v; try apply steady_tools_loop; apply steady_error_invalid.
Qed.

Lemma steady_validate_frontmatter (h : store) (metadata : dict) :
  steady (_validate_frontmatter h metadata).
Proof.
  unfold _validate_frontmatter.
  destruct (bool_decide (metadata = ∅)); [auto with validator|].
  repeat apply steady_bind.
  - unfold check_unknown_fields. auto with validator.
  - unfold check_description. destruct (metadata !! "description");
      [destruct (String.eqb _ _)|]; auto with validator.
  - unfold check_allowed_tools. destruct (metadata !! "allowed-tools");
      [apply steady_validate_allowed_tools|auto with validator].
  - unfold check_model. destruct (metadata !! "model") as [[]|];
      auto with validator.
  - unfold check_argument_hint. destruct (metadata !! "argument-hint");
      auto with validator.
  - unfold check_disable_model_invocation.
    destruct (metadata !! "disable-model-invocation") as [[]|];
      auto with validator.
Qed.

Lemma steady_validate_content
    (loads : string -> exn + (store * dict * string))
    (fs : gmap string string) (body path : string) :
  steady (_validate_content loads fs body path).
Proof.
  unfold _validate_content.
  destruct (String.eqb body "" || String.eqb (Py.strip body) "");
    [auto with validator|].
  repeat apply steady_bind; auto with validator.
  apply steady_when, steady_bind; [auto with validator|].
  destruct (_get_frontmatter_from_file loads fs path) as [[h m]|];
    [|auto with validator].
  destruct (bool_decide (m = ∅)); [auto with validator|].
  destruct (m !! "allowed-tools"); auto with validator.
Qed.

Lemma steady_validate_arguments (metadata : dict) (body : string) :
  steady (_validate_arguments metadata body).
Proof. unfold _validate_arguments. auto 10 with validator. Qed.

Lemma validate_file_facts
    (loads : string -> exn + (store * dict * string))
    (fs : gmap string string) (path : string) :
  file_path (validate_file loads fs path) = path
  /\ is_valid (validate_file loads fs path)
     = negb (nonempty (errors (validate_file loads fs path))).
Proof.
  unfold validate_file.
  match goal with
  | |- context [match ?run (new_result path) with _ => _ end] =>
      assert (Hrun : steady run); [|destruct (Hrun (new_result path)) as (Hp & Hc & _);
                                    destruct (run (new_result path)) as [r [e|u]]]
  end.
  - destruct (fs !! path) as [content|]; [|apply steady_raise].
    destruct (loads content) as [e|[[h m] body]]; [apply steady_invalid_error|].
    auto using steady_bind, steady_validate_frontmatter,
      steady_validate_content, steady_validate_arguments.
  - cbn [fst] in *.
    destruct (steady_invalid_error ("Unexpected error: " +:+ str_of_exn e) r)
      as (Hp' & Hc' & _).
    split; [by rewrite Hp'|]. apply Hc'. by apply Hc.
  - cbn [fst] in *. split; [exact Hp|]. by apply Hc.
Qed.

(** X5.  The result of [validate_file] carries the path it was given,
    and it is valid exactly when it has no error, whatever the file
    holds and whether or not it exists. *)
Theorem validate_file_valid_iff_no_error
    (loads : string -> exn + (store * dict * string))
    (fs : gmap string string) (path : string) :
  file_path (validate_file loads fs path) = path
  /\ (is_valid (validate_file loads fs path) = true
      <-> errors (validate_file loads fs path) = []).
Proof.
  destruct (validate_file_facts loads fs path) as [Hp Hv].
  split; [exact Hp|]. rewrite Hv.
  destruct (errors (validate_file loads fs path)); by split.
Qed.

(** ** The whole directory and the exit status *)

Lemma validate_all_loop
    (loads : string -> exn + (store * dict * string))
    (fs : gmap string string) (files : list string)
    (results : list ValidationResult) :
  fold_left (fun results file_path => results ++ [validate_file loads fs file_path])
    files results
  = results ++ map (validate_file loads fs) files.
Proof.
  revert results. induction files as [|f files IH]; intros results; cbn.
  - by rewrite app_nil_r.
  - rewrite IH. by rewrite <- app_assoc.
Qed.

Lemma filter_length_all {A : Type} (f : A -> bool) (l : list A) :
  (length l - length (List.filter f l) = 0)%nat <-> Forall (fun x => f x = true) l.
Proof.
  pose proof (List.filter_length_le f) as Hle.
  induction l as [|x l IH]; cbn; [by split; [constructor|]|].
  destruct (f x) eqn:Hx; cbn.
  - rewrite IH. split; [by constructor|by inversion 1].
  - specialize (Hle l). split; [lia|]. inversion 1; congruence.
Qed.

Lemma print_results_zero (results : list ValidationResult) :
  print_results results = 0%nat <-> Forall (fun r => is_valid r = true) results.
Proof.
  unfold print_results. rewrite <- (filter_length_all (fun r => is_valid r)).
  destruct (Nat.eqb_spec
              (length results - length (List.filter (fun r => is_valid r) results)) 0);
    by split.
Qed.

(** X6.  Run on an existing directory with an empty list of results,
    [validate_all] gives one result per listed file that is not a
    README, in the order of the listing, and the exit status that
    [print_results] computes from them is 0 exactly when none of these
    files has an error (and 1 otherwise). *)
Theorem exit_status_zero_iff_no_error
    (loads : string -> exn + (store * dict * string))
    (listing : list string) (fs : gmap string string)
    (results : list ValidationResult) :
  validate_all loads (Some listing) fs [] = Some results ->
  map file_path results = List.filter (fun f => negb (is_readme f)) listing
  /\ (print_results results = 0%nat
      <-> forall p, In p listing -> is_readme p = false ->
                    errors (validate_file loads fs p) = [])
  /\ (print_results results = 0%nat \/ print_results results = 1%nat).
Proof.
  unfold validate_all. rewrite validate_all_loop. intros [= <-]. cbn [app].
  split; [|split].
  - rewrite map_map. rewrite <- (map_id (List.filter _ listing)) at 2.
    apply map_ext. intros p. apply validate_file_facts.
  - rewrite print_results_zero, List.Forall_map, List.Forall_forall.
    split.
    + intros H p Hin Hr.
      assert (Hv : is_valid (validate_file loads fs p) = true).
      { apply H, List.filter_In. split; [exact Hin|]. by rewrite Hr. }
      rewrite (proj2 (validate_file_facts loads fs p)) in Hv.
      by destruct (errors (validate_file loads fs p)).
    + intros H p [Hin Hr]%List.filter_In.
      rewrite (proj2 (validate_file_facts loads fs p)), H; [done|exact Hin|].
      by destruct (is_readme p).
  - unfold print_results. by destruct (_ =? _)%nat; [left|right].
Qed.

Lemma exit_status_zero_iff_no_error_witness :
  exists results,
    validate_all Reference.loads (Some example_listing) example_files []
    = Some results
    /\ map file_path results
       = ["commands/deploy.md"; "commands/broken.md"; "commands/clean.md"]
    /\ print_results results = 1%nat.
Proof.
  eexists. split; [reflexivity|].
  split.
  - rewrite (proj1 (exit_status_zero_iff_no_error Reference.loads example_listing
                      example_files _ eq_refl)).
    vm_compute. reflexivity.
  - vm_compute. reflexivity.
Defined.

(** ** The fixer's output under the validator *)

Lemma split_comma_nonempty (s : string) : Py.split_comma s <> [].
Proof.
  induction s as [|c s IH]; cbn; [done|].
  destruct (Ascii.eqb c ","%char); [done|]. by destruct (Py.split_comma s).
Qed.

(** Splitting at commas distributes over a comma between two texts. *)
Lemma split_comma_app (s t : string) :
  Py.split_comma (s +:+ String ","%char t) = Py.split_comma s ++ Py.split_comma t.
Proof.
  induction s as [|c s IH]; [done|].
  change (String c s +:+ String ","%char t) with (String c (s +:+ String ","%char t)).
  cbn [Py.split_comma].
  destruct (Ascii.eqb c ","%char); [by rewrite IH|].
  rewrite IH. pose proof (split_comma_nonempty s) as Hne.
  by destruct (Py.split_comma s).
Qed.

Lemma warnings_kept (c : M unit) (r : ValidationResult) (x : string) :
  steady c -> In x (warnings r) -> In x (warnings (fst (c r))).
Proof. intros H. apply (H r). Qed.

Lemma tools_loop_warns (tools : list string) (t : string) (r : ValidationResult) :
  In t tools -> Py.strip t = "Bash" ->
  In "Tool 'Bash' may not be a valid tool name"
    (warnings (fst (tools_loop tools r))).
Proof.
  revert r. induction tools as [|t0 tools IH]; intros r Hin Ht; [done|].
  cbn [tools_loop fold_right].
  rewrite bind_no_raise
    by (destruct (String.eqb _ _); auto with validator).
  destruct Hin as [->|Hin].
  - apply (warnings_kept (tools_loop tools)); [apply steady_tools_loop|].
    rewrite Ht. cbn. apply in_or_app. right. by left.
  - by apply IH.
Qed.

Lemma no_raise_check_description (h : store) (metadata : dict) :
  no_raise (check_description h metadata).
Proof.
  unfold check_description. destruct (metadata !! "description");
    [destruct (String.eqb _ _)|]; auto with validator.
Qed.

Lemma validate_tools_after_add (h : store) (metadata : dict) (r : ValidationResult) :
  exists v,
    snd (Fixer._add_bash_to_allowed_tools h metadata) !! "allowed-tools" = Some v
    /\ snd (_validate_allowed_tools
              (fst (Fixer._add_bash_to_allowed_tools h metadata)) v r) = inr tt
    /\ In "Tool 'Bash' may not be a valid tool name"
         (warnings (fst (_validate_allowed_tools
                           (fst (Fixer._add_bash_to_allowed_tools h metadata)) v r))).
Proof.
  assert (Hstr : forall h0 s,
             snd (_validate_allowed_tools h0 (VStr (s +:+ ", Bash")) r) = inr tt
             /\ In "Tool 'Bash' may not be a valid tool name"
                  (warnings (fst (_validate_allowed_tools h0 (VStr (s +:+ ", Bash")) r)))).
  { intros h0 s. split; [apply validate_allowed_tools_facts|].
    change (_validate_allowed_tools h0 (VStr (s +:+ ", Bash")))
      with (tools_loop (map Py.strip (Py.split_comma (s +:+ ", Bash")))).
    apply (tools_loop_warns _ (Py.strip " Bash")); [|done].
    apply in_map. change ", Bash" with (String ","%char " Bash").
    rewrite split_comma_app. apply in_or_app. right. by left. }
  unfold Fixer._add_bash_to_allowed_tools.
  destruct (metadata !! "allowed-tools") as [[s|b| |l]|]; cbn [fst snd];
    rewrite lookup_insert_eq; eexists; (split; [reflexivity|]);
    try apply Hstr.
  - split; [apply validate_allowed_tools_facts|].
    change (_validate_allowed_tools ?h0 (VList l)) with (tools_loop (deref h0 l)).
    rewrite deref_insert.
    apply (tools_loop_warns _ "Bash"); [|done].
    apply in_or_app. right. by left.
  - split; [apply validate_allowed_tools_facts|].
    change (_validate_allowed_tools ?h0 (VStr "Bash"))
      with (tools_loop (map Py.strip (Py.split_comma "Bash"))).
    apply (tools_loop_warns _ "Bash"); [|done].
    vm_compute. by left.
Qed.

(** X7.  The metadata that [_add_bash_to_allowed_tools] returns always
    draws the warning of the validator about the tool name: the bare
    name that the fixer writes is not one of the validator's tool
    patterns, which know the shell tool only with a parenthesised
    argument. *)
Theorem added_bash_draws_warning (h : store) (metadata : dict)
    (r : ValidationResult) :
  In "Tool 'Bash' may not be a valid tool name"
    (warnings
       (fst (_validate_frontmatter
               (fst (Fixer._add_bash_to_allowed_tools h metadata))
               (snd (Fixer._add_bash_to_allowed_tools h metadata)) r))).
Proof.
  destruct (validate_tools_after_add h metadata
              (fst (check_description
                      (fst (Fixer._add_bash_to_allowed_tools h metadata))
                      (snd (Fixer._add_bash_to_allowed_tools h metadata))
                      (fst (check_unknown_fields
                              (snd (Fixer._add_bash_to_allowed_tools h metadata)) r)))))
    as (v & Hv & Hok & Hin).
  set (h' := fst (Fixer._add_bash_to_allowed_tools h metadata)) in *.
  set (m' := snd (Fixer._add_bash_to_allowed_tools h metadata)) in *.
  unfold _validate_frontmatter.
  rewrite bool_decide_eq_false_2
    by (intros E; rewrite E, lookup_empty in Hv; done).
  rewrite bind_no_raise by apply check_unknown_fields_facts.
  rewrite bind_no_raise by apply no_raise_check_description.
  rewrite bind_run. unfold check_allowed_tools at 1. rewrite Hv.
  destruct (_validate_allowed_tools h' v _) as [r3 [e|[]]]; cbn [fst snd] in *;
    [done|].
  apply warnings_kept; [|exact Hin].
  repeat apply steady_bind.
  - unfold check_model. destruct (m' !! "model") as [[]|]; auto with validator.
  - unfold check_argument_hint. destruct (m' !! "argument-hint");
      auto with validator.
  - unfold check_disable_model_invocation.
    destruct (m' !! "disable-model-invocation") as [[]|]; auto with validator.
Qed.

Lemma silent_tools_loop (tools : list string) :
  silent_on bash_msg args_msg (tools_loop tools).
Proof.
  induction tools as [|t tools IH]; [apply silent_ret|].
  cbn [tools_loop fold_right]. apply silent_bind; [|exact IH].
  destruct (String.eqb _ _); [auto with validator|].
  apply silent_when. other_message_with silent_add_warning silent_add_error.
Qed.

(** The metadata checks never give the two findings the fixer works on. *)
Lemma silent_validate_frontmatter (h : store) (metadata : dict) :
  silent_on bash_msg args_msg (_validate_frontmatter h metadata).
Proof.
  unfold _validate_frontmatter.
  destruct (bool_decide (metadata = ∅));
    [other_message_with silent_add_warning silent_add_error|].
  repeat apply silent_bind.
  - unfold check_unknown_fields. apply silent_when.
    other_message_with silent_add_warning silent_add_error.
  - unfold check_description. destruct (metadata !! "description");
      [destruct (String.eqb _ _)|].
    + apply silent_bind; [|auto with validator].
      other_message_with silent_add_warning silent_add_error.
    + apply silent_when. other_message_with silent_add_warning silent_add_error.
    + other_message_with silent_add_warning silent_add_error.
  - unfold check_allowed_tools. destruct (metadata !! "allowed-tools") as [[]|];
      try apply silent_tools_loop; auto with validator;
      (apply silent_bind; [|auto with validator]);
      other_message_with silent_add_warning silent_add_error.
  - unfold check_model. destruct (metadata !! "model") as [[]|];
      auto with validator; apply silent_when;
      other_message_with silent_add_warning silent_add_error.
  - unfold check_argument_hint. destruct (metadata !! "argument-hint");
      auto with validator. apply silent_when.
    other_message_with silent_add_warning silent_add_error.
  - unfold check_disable_model_invocation.
    destruct (metadata !! "disable-model-invocation") as [[]|];
      auto with validator;
      (apply silent_bind; [|auto with validator]);
      other_message_with silent_add_warning silent_add_error.
Qed.

(** The content check when the file read back declares the capability
    for every body with a marker. *)
Lemma silent_validate_content
    (loads : string -> exn + (store * dict * string))
    (fs : gmap string string) (path text : string)
    (h : store) (metadata : dict) (body0 body : string) :
  fs !! path = Some text ->
  loads text = inr (h, metadata, body0) ->
  (nonempty (findall_bash body) = true ->
   exists v, metadata !! "allowed-tools" = Some v
             /\ Py.contains "Bash" (py_str h v) = true) ->
  silent_on bash_msg args_msg (_validate_content loads fs body path).
Proof.
  intros Hfile Hloads Hdecl. unfold _validate_content, _get_frontmatter_from_file.
  rewrite Hfile, Hloads.
  destruct (String.eqb body "" || String.eqb (Py.strip body) "").
  { apply silent_bind; [|auto with validator].
    other_message_with silent_add_warning silent_add_error. }
  repeat apply silent_bind; auto with validator.
  destruct (nonempty (findall_bash body)); [|apply silent_ret].
  destruct Hdecl as (v & Hv & Hc); [done|].
  cbn [when]. apply silent_bind; [auto with validator|].
  rewrite Hv, Hc. destruct (bool_decide (metadata = ∅)); apply silent_ret.
Qed.

Lemma silent_validate_arguments (metadata : dict) (body : string) :
  (Py.contains "$ARGUMENTS" body || nonempty (findall_positional body) = true ->
   has_key metadata "argument-hint" = true) ->
  silent_on bash_msg args_msg (_validate_arguments metadata body).
Proof.
  intros Hk. unfold _validate_arguments.
  destruct (Py.contains "$ARGUMENTS" body), (nonempty (findall_positional body)),
    (has_key metadata "argument-hint");
    cbn [orb] in Hk; try (specialize (Hk eq_refl); discriminate);
    cbn [when andb orb negb];
    repeat apply silent_bind; auto with validator;
    other_message_with silent_add_warning silent_add_error.
Qed.

(** X8.  When a pass of the fixer completes and the file then holds a
    text that the parser reads as the new metadata with the same body,
    the validator reports on this file neither the error about shell
    commands without the capability nor the warning about arguments
    without a hint. *)
Theorem completed_pass_clears_findings
    (loads : string -> exn + (store * dict * string))
    (fs : gmap string string) (path text : string)
    (h h' h2 : store) (metadata new_metadata m2 : dict) (body : string)
    (fixes0 fixes : list string) :
  Fixer.apply_fixes h metadata body fixes0 = inr (h', new_metadata, fixes) ->
  fs !! path = Some text ->
  loads text = inr (h2, m2, body) ->
  resolve h2 m2 = resolve h' new_metadata ->
  count_occ string_dec (errors (validate_file loads fs path)) bash_msg = 0%nat
  /\ count_occ string_dec (warnings (validate_file loads fs path)) args_msg = 0%nat.
Proof.
  intros Hap Hfile Hloads Hres.
  assert (Hrun : silent_on bash_msg args_msg
                   (_validate_frontmatter h2 m2 ;;
                    _validate_content loads fs body path ;;
                    _validate_arguments m2 body)).
  { apply silent_bind; [apply silent_validate_frontmatter|].
    apply silent_bind.
    - apply (silent_validate_content loads fs path text h2 m2 body);
        [done|done|].
      intros Hm.
      destruct (apply_fixes_declares _ _ _ _ _ _ _ Hap Hm) as (v & joined & Hv & Ht & Hc).
      pose proof (resolve_lookup _ _ _ _ "allowed-tools" Hres) as Hl.
      rewrite Hv in Hl. destruct (m2 !! "allowed-tools") as [v2|]; [|done].
      cbn in Hl. inversion Hl as [Hrv].
      exists v2. split; [done|].
      rewrite (tools_text_str h2 v2 joined); [done|].
      by rewrite (resolve_tools_text _ _ _ _ Hrv).
    - apply silent_validate_arguments. intros Hargs.
      destruct (fix_metadata_normal h metadata body) as (_ & _ & Hk).
      cbn zeta in Hk. specialize (Hk Hargs). unfold has_key in *.
      rewrite <- (apply_fixes_field _ _ _ _ _ _ _ "argument-hint" Hap) in Hk by done.
      pose proof (resolve_lookup _ _ _ _ "argument-hint" Hres) as Hl.
      destruct (new_metadata !! "argument-hint"); [|done].
      by destruct (m2 !! "argument-hint"). }
  unfold validate_file. rewrite Hfile, Hloads.
  destruct (Hrun (new_result path)) as (He & Hw & _).
  destruct ((_validate_frontmatter h2 m2 ;; _) (new_result path)) as [r [e|u]];
    cbn [fst] in He, Hw; [|done].
  assert (Hlast : silent_on bash_msg args_msg
                    (set_invalid ;;
                     add_error ("Unexpected error: " +:+ str_of_exn e))).
  { apply silent_bind; [auto with validator|].
    other_message_with silent_add_warning silent_add_error. }
  destruct (Hlast r) as (He' & Hw' & _). by rewrite He', Hw'.
Qed.

Lemma completed_pass_clears_findings_witness :
  (Fixer.apply_fixes {[ 0%nat := ["Deploy"; "the site"] ]}
     {[ "description" := VList 0; "allowed-tools" := VStr "Edit" ]}
     ("Run !`make deploy` on $1" +:+ nl) []
   = inr ({[ 0%nat := ["Deploy"; "the site"] ]}, c1_fixed_metadata,
          ["Converted description from list to string";
           "Added argument-hint for positional arguments ($1-$1)";
           "Bash commands found but Bash not in allowed-tools"])
   /\ ({[ "deploy.md" := c1_fixed_text ]} : gmap string string) !! "deploy.md"
      = Some c1_fixed_text
   /\ Reference.loads c1_fixed_text
      = inr (∅, c1_fixed_metadata, "Run !`make deploy` on $1" +:+ nl)
   /\ resolve ∅ c1_fixed_metadata
      = resolve {[ 0%nat := ["Deploy"; "the site"] ]} c1_fixed_metadata)
  /\ count_occ string_dec
       (errors (validate_file Reference.loads {[ "deploy.md" := c1_fixed_text ]}
                  "deploy.md")) bash_msg = 0%nat
  /\ count_occ string_dec
       (warnings (validate_file Reference.loads {[ "deploy.md" := c1_fixed_text ]}
                    "deploy.md")) args_msg = 0%nat.
Proof.
  split; [repeat split; vm_compute; reflexivity|].
  apply (completed_pass_clears_findings Reference.loads
           {[ "deploy.md" := c1_fixed_text ]} "deploy.md" c1_fixed_text
           {[ 0%nat := ["Deploy"; "the site"] ]}
           {[ 0%nat := ["Deploy"; "the site"] ]} ∅
           {[ "description" := VList 0; "allowed-tools" := VStr "Edit" ]}
           c1_fixed_metadata c1_fixed_metadata
           ("Run !`make deploy` on $1" +:+ nl) []
           ["Converted description from list to string";
            "Added argument-hint for positional arguments ($1-$1)";
            "Bash commands found but Bash not in allowed-tools"]);
    vm_compute; reflexivity.
Defined.

(** ** What a pass keeps *)







(** ** The metadata fixes *)

(** X10.  A description or an argument-hint that was decoded as a
    sequence is replaced by its items joined with single spaces, and
    the conversion is recorded. *)
Theorem sequence_fields_become_strings
    (h : store) (metadata : dict) (body k : string) (r : ref) :
  k = "description" \/ k = "argument-hint" ->
  metadata !! k = Some (VList r) ->
  fst (Fixer._fix_metadata h metadata body) !! k
  = Some (VStr (Py.join " " (deref h r)))
  /\ In ("Converted " +:+ k +:+ " from list to string")
       (snd (Fixer._fix_metadata h metadata body)).
Proof.
  intros [-> | ->] Hk; unfold Fixer._fix_metadata, has_key.
  - rewrite Hk. cbn beta iota zeta. lookup_inserted.
    destruct (metadata !! "argument-hint") as [[]|] eqn:Ea;
      cbn beta iota zeta;
      repeat match goal with
        | |- context [if ?b then _ else _] => destruct b
        end;
      cbn [fst snd]; lookup_inserted;
      (split; [done|]); cbn; auto 6.
  - destruct (metadata !! "description") as [[]|] eqn:Ed;
      cbn beta iota zeta; lookup_inserted; rewrite Hk;
      cbn beta iota zeta; lookup_inserted;
      cbn [negb]; rewrite andb_false_r; cbn [fst snd]; lookup_inserted;
      (split; [done|]); cbn; auto 6.
Qed.

Lemma sequence_fields_become_strings_witness :
  (("description" = "description" \/ "description" = "argument-hint")
   /\ ({[ "description" := VList 0 ]} : dict) !! "description" = Some (VList 0))
  /\ fst (Fixer._fix_metadata {[ 0%nat := ["Deploy"; "the site"] ]}
            {[ "description" := VList 0 ]} "Run it")
       !! "description"
     = Some (VStr "Deploy the site")
  /\ In "Converted description from list to string"
       (snd (Fixer._fix_metadata {[ 0%nat := ["Deploy"; "the site"] ]}
               {[ "description" := VList 0 ]} "Run it")).
Proof.
  split; [split; [by left|reflexivity]|].
  exact (sequence_fields_become_strings {[ 0%nat := ["Deploy"; "the site"] ]}
           {[ "description" := VList 0 ]} "Run it" "description" 0%nat
           (or_introl eq_refl) eq_refl).
Defined.

(** X11.  When the body uses the catch-all placeholder and the
    metadata has no argument-hint, the hint added is the generic one,
    also when the body uses positional placeholders as well, and its
    record is the last one made. *)
Theorem catch_all_hint_takes_precedence
    (h : store) (metadata : dict) (body : string) :
  has_key metadata "argument-hint" = false ->
  Py.contains "$ARGUMENTS" body = true ->
  fst (Fixer._fix_metadata h metadata body) !! "argument-hint"
  = Some (VStr "[args]")
  /\ exists before,
       snd (Fixer._fix_metadata h metadata body)
       = before ++ ["Added generic argument-hint for $ARGUMENTS usage"].
Proof.
  intros Hk Harg. apply has_key_false in Hk.
  unfold Fixer._fix_metadata, has_key. rewrite Harg.
  destruct (metadata !! "description") as [[]|] eqn:Ed;
    cbn beta iota zeta; lookup_inserted; rewrite ?Hk;
    cbn; lookup_inserted; rewrite ?Hk; cbn; lookup_inserted;
    (split; [done|]); first [by exists [] | by eexists [_]].
Qed.

Lemma catch_all_hint_takes_precedence_witness :
  (has_key ({[ "description" := VStr "Deploy" ]} : dict) "argument-hint" = false
   /\ Py.contains "$ARGUMENTS" "Deploy $1 with $ARGUMENTS" = true)
  /\ fst (Fixer._fix_metadata ∅ {[ "description" := VStr "Deploy" ]}
            "Deploy $1 with $ARGUMENTS")
       !! "argument-hint"
     = Some (VStr "[args]").
Proof.
  split; [split; reflexivity|].
  exact (proj1 (catch_all_hint_takes_precedence ∅
                  {[ "description" := VStr "Deploy" ]}
                  "Deploy $1 with $ARGUMENTS" eq_refl eq_refl)).
Defined.

(** ** The syntax repair *)

Lemma substring_drop (n : nat) (s : string) :
  String.substring 0 n s +:+ drop_chars n s = s.
Proof.
  revert n. induction s as [|a s IH]; intros [|n]; simpl; try done.
  change (String a ?x +:+ ?y) with (String a (x +:+ y)).
  f_equal. apply IH.
Qed.

(** A substitution whose callback made no record gives the text back,
    and every record of a substitution is one of the callback. *)
Lemma sub_from_facts (r : Re.regex)
    (repl : Re.captures -> string -> string * list string)
    (P : string -> Prop) :
  (forall c w, snd (repl c w) = [] -> fst (repl c w) = w) ->
  (forall c w, Forall P (snd (repl c w))) ->
  forall s skip prev,
    (snd (Re.sub_from r repl skip prev s) = [] ->
     fst (Re.sub_from r repl skip prev s) = drop_chars skip s)
    /\ Forall P (snd (Re.sub_from r repl skip prev s)).
Proof.
  intros Hid Hrec. induction s as [|a t IH]; intros skip prev.
  - destruct skip as [|skip]; cbn; [|by split].
    destruct (Re.matches r _ prev "" []) as [[c s']|]; by split.
  - destruct skip as [|skip]; [|apply IH].
    cbn [Re.sub_from drop_chars].
    assert (Hcopy :
      (snd (let '(out, fixes) := Re.sub_from r repl 0 (Some a) t in
            (String a out, fixes)) = [] ->
       fst (let '(out, fixes) := Re.sub_from r repl 0 (Some a) t in
            (String a out, fixes)) = String a t)
      /\ Forall P (snd (let '(out, fixes) := Re.sub_from r repl 0 (Some a) t in
                        (String a out, fixes)))).
    { destruct (IH 0%nat (Some a)) as [H1 H2].
      destruct (Re.sub_from r repl 0 (Some a) t) as [out fixes]; cbn in *.
      split; [|done]. intros E. by rewrite (H1 E). }
    destruct (Re.matches r _ prev (String a t) []) as [[c s']|]; [|exact Hcopy].
    destruct (String.length (String a t) - String.length s')%nat as [|n'] eqn:En;
      [exact Hcopy|].
    specialize (Hid c (String.substring 0 (S n') (String a t))).
    specialize (Hrec c (String.substring 0 (S n') (String a t))).
    destruct (repl c _) as [rep made]. cbn [fst snd] in *.
    destruct (IH n' (Some a)) as [H1 H2].
    destruct (Re.sub_from r repl n' (Some a) t) as [out fixes]; cbn [fst snd] in *.
    split.
    + intros [-> ->]%app_eq_nil. rewrite Hid, H1 by done.
      change (String.substring 0 (S n') (String a t))
        with (String a (String.substring 0 n' t)).
      change (String a ?x +:+ ?y) with (String a (x +:+ y)).
      by rewrite substring_drop.
    + by apply Forall_app.
Qed.

Lemma quote_brackets_facts (c : Re.captures) (w : string) :
  (snd (Fixer.quote_brackets c w) = [] -> fst (Fixer.quote_brackets c w) = w)
  /\ Forall (fun x => Py.startswith "Quoted square brackets in '" x = true)
       (snd (Fixer.quote_brackets c w)).
Proof.
  unfold Fixer.quote_brackets.
  destruct (Py.has_char "["%char (Re.group 2 c) && _); cbn [fst snd]; [|done].
  split; [done|]. constructor; [|done].
  apply (startswith_app "Quoted square brackets in '").
Qed.

(** The opening marker line, the block, the closing marker line and
    the body make up the text that was matched. *)
Lemma split_at_closing_parts (s fm body : string) :
  Fixer.split_at_closing s = Some (fm, body) ->
  s = fm +:+ nl +:+ "---" +:+ nl +:+ body.
Proof.
  revert fm. induction s as [|c s IH]; intros fm; [done|].
  unfold Fixer.split_at_closing; fold Fixer.split_at_closing.
  destruct (Py.startswith (nl +:+ "---" +:+ nl) (String c s)) eqn:Es.
  - intros [= <- <-]. apply startswith_split in Es. exact Es.
  - destruct (Fixer.split_at_closing s) as [[fm0 body0]|] eqn:E; [|done].
    intros [= <- <-]. by rewrite (IH fm0 eq_refl) at 1.
Qed.

Lemma fm_match_parts (content fm body : string) :
  Fixer.fm_match content = Some (fm, body) ->
  content = "---" +:+ nl +:+ fm +:+ nl +:+ "---" +:+ nl +:+ body.
Proof.
  unfold Fixer.fm_match.
  destruct (Py.startswith ("---" +:+ nl) content) eqn:Es; [|done].
  intros H%split_at_closing_parts. apply startswith_split in Es.
  rewrite Es at 1. cbn [String.length] in *. rewrite H at 1. reflexivity.
Qed.

(** X12.  The syntax repair either finds no metadata block and returns
    the text as it is, or rebuilds the text from the two marker lines,
    a block and the body it found: the body is never changed, every
    record is one about quoted square brackets, and when it makes no
    record the text it returns is the text it was given. *)
Theorem syntax_repair_changes_only_the_block (content : string) :
  (Fixer.fm_match content = None
   /\ Fixer._fix_frontmatter_syntax content = (content, []))
  \/ exists fm fm' body,
       content = "---" +:+ nl +:+ fm +:+ nl +:+ "---" +:+ nl +:+ body
       /\ fst (Fixer._fix_frontmatter_syntax content)
          = "---" +:+ nl +:+ fm' +:+ nl +:+ "---" +:+ nl +:+ body
       /\ (snd (Fixer._fix_frontmatter_syntax content) = [] -> fm' = fm)
       /\ Forall (fun x => Py.startswith "Quoted square brackets in '" x = true)
            (snd (Fixer._fix_frontmatter_syntax content)).
Proof.
  unfold Fixer._fix_frontmatter_syntax.
  destruct (Fixer.fm_match content) as [[fm body]|] eqn:E; [right|by left].
  apply fm_match_parts in E.
  destruct (sub_from_facts Fixer.key_value_line Fixer.quote_brackets
              (fun x => Py.startswith "Quoted square brackets in '" x = true)
              (fun c w => proj1 (quote_brackets_facts c w))
              (fun c w => proj2 (quote_brackets_facts c w))
              fm 0%nat None) as [H1 H2].
  unfold Fixer.quote_bracket_lines, Re.sub.
  destruct (Re.sub_from _ _ 0 None fm) as [fm' fixes]; cbn [fst snd] in *.
  exists fm, fm', body. done.
Qed.

(** ** A permission check that fails *)

(** X13.  When the body has a shell-execution marker and allowed-tools
    is a boolean or null, the permission check raises: the file is
    left as it is, also without dry-run, and the list returned holds
    the records of the parsing stage and of the metadata fixes, none
    of which was applied, followed by the record of the error. *)
Theorem failed_permission_check_applies_nothing
    (loads : string -> exn + (store * dict * string))
    (dumps : store -> dict -> string -> exn + string)
    (dry_run : bool) (fs : gmap string string) (path content : string)
    (h : store) (metadata : dict) (body : string) (fixes0 : list string)
    (v : value) :
  fs !! path = Some content ->
  Fixer.parse_with_repair loads content = inr (h, metadata, body, fixes0) ->
  nonempty (findall_bash body) = true ->
  metadata !! "allowed-tools" = Some v ->
  tools_text h v = None ->
  Fixer.fix_file loads dumps dry_run fs path
  = (fs,
     (fixes0 ++ snd (Fixer._fix_metadata h metadata body))
     ++ ["Unexpected error: argument of type '"
         +:+ (match v with VBool _ => "bool" | _ => "NoneType" end)
         +:+ "' is not iterable"]).
Proof.
  intros Hfile Hparse Hm Hv Ht.
  unfold Fixer.fix_file. rewrite Hfile, Hparse, apply_fixes_eq. cbn zeta.
  rewrite (check_bash_with_marker _ _ _ Hm), Hv.
  by destruct v.
Qed.

Lemma failed_permission_check_applies_nothing_witness :
  (({[ "flag.md" := flag_text ]} : gmap string string) !! "flag.md"
   = Some flag_text
   /\ Fixer.parse_with_repair Reference.loads flag_text
      = inr ({[ 0%nat := ["Deploy"; "the site"] ]},
             {[ "description" := VList 0; "allowed-tools" := VBool true ]},
             "Run !`make deploy`" +:+ nl, [])
   /\ nonempty (findall_bash ("Run !`make deploy`" +:+ nl)) = true
   /\ ({[ "description" := VList 0; "allowed-tools" := VBool true ]} : dict)
        !! "allowed-tools" = Some (VBool true)
   /\ tools_text {[ 0%nat := ["Deploy"; "the site"] ]} (VBool true) = None)
  /\ Fixer.fix_file Reference.loads Reference.dumps false
       {[ "flag.md" := flag_text ]} "flag.md"
     = ({[ "flag.md" := flag_text ]},
        ["Converted description from list to string";
         "Unexpected error: argument of type 'bool' is not iterable"]).
Proof.
  split; [repeat split; vm_compute; reflexivity|].
  exact (failed_permission_check_applies_nothing Reference.loads Reference.dumps
           false {[ "flag.md" := flag_text ]} "flag.md" flag_text
           {[ 0%nat := ["Deploy"; "the site"] ]}
           {[ "description" := VList 0; "allowed-tools" := VBool true ]}
           ("Run !`make deploy`" +:+ nl) [] (VBool true)
           eq_refl eq_refl eq_refl eq_refl eq_refl).
Defined.

(** ** The total that the fixer prints *)

(** X14.  The total of files checked that [print_results] prints is
    the number of files that [fix_all] went through exactly when the
    listing holds one README, no more and no less. *)
Theorem printed_total_needs_one_readme (listing : list string) :
  Fixer.print_results_total listing
  = Z.of_nat (length (List.filter (fun f => negb (is_readme f)) listing))
  <-> length (List.filter is_readme listing) = 1%nat.
Proof.
  unfold Fixer.print_results_total.
  pose proof (List.filter_length is_readme listing) as H.
  split; lia.
Qed.

(** ** A sequence of tools and the same tools as one string *)

Lemma split_comma_one (x : string) :
  Py.has_char ","%char x = false -> Py.split_comma x = [x].
Proof.
  induction x as [|c x IH]; [done|]. cbn [Py.has_char Py.split_comma].
  rewrite (Ascii.eqb_sym ","%char c).
  destruct (Ascii.eqb c ","%char); [done|]. cbn [orb]. intros H.
  by rewrite (IH H).
Qed.

Lemma rstrip_idemp (s : string) : Py.rstrip (Py.rstrip s) = Py.rstrip s.
Proof.
  induction s as [|c s IH]; [done|]. cbn [Py.rstrip].
  destruct (Py.rstrip s) as [|d r] eqn:E.
  - destruct (Py.isspace c) eqn:Ec; [done|]. cbn. by rewrite Ec.
  - cbn [Py.rstrip] in *. rewrite IH. done.
Qed.

Lemma rstrip_head (c : ascii) (s : string) :
  Py.isspace c = false ->
  exists r, Py.rstrip (String c s) = String c r.
Proof.
  intros Hc. cbn [Py.rstrip]. destruct (Py.rstrip s); [|by eexists].
  rewrite Hc. by eexists.
Qed.

Lemma strip_idemp (s : string) : Py.strip (Py.strip s) = Py.strip s.
Proof.
  unfold Py.strip.
  assert (H : Py.lstrip (Py.rstrip (Py.lstrip s)) = Py.rstrip (Py.lstrip s)).
  { induction s as [|c s IH]; [done|]. cbn [Py.lstrip].
    destruct (Py.isspace c) eqn:Ec; [exact IH|].
    destruct (rstrip_head c s Ec) as [r ->]. cbn [Py.lstrip]. by rewrite Ec. }
  rewrite H. apply rstrip_idemp.
Qed.

(** The items of a joined text, stripped, are the items, stripped. *)
Lemma split_join_strip (l : list string) :
  l <> [] ->
  Forall (fun t => Py.has_char ","%char t = false) l ->
  map Py.strip (Py.split_comma (Py.join ", " l)) = map Py.strip l.
Proof.
  intros Hne Hall. induction Hall as [|x l Hx Hall IH]; [done|].
  destruct l as [|y l].
  - cbn [Py.join]. by rewrite split_comma_one.
  - change (Py.join ", " (x :: y :: l))
      with (x +:+ String ","%char (" " +:+ Py.join ", " (y :: l))).
    rewrite split_comma_app, split_comma_one by done.
    cbn [app map]. f_equal.
    specialize (IH ltac:(done)).
    change (" " +:+ ?t) with (String " "%char t).
    cbn [Py.split_comma]. change (Ascii.eqb " " ",") with false. cbn iota.
    pose proof (split_comma_nonempty (Py.join ", " (y :: l))) as Hn.
    destruct (Py.split_comma (Py.join ", " (y :: l))) as [|z zs]; [done|].
    cbn [map] in *. rewrite <- IH. f_equal.
Qed.

Lemma tools_loop_strip (l : list string) (res : ValidationResult) :
  tools_loop (map Py.strip l) res = tools_loop l res.
Proof.
  revert res. induction l as [|t l IH]; intros res; [done|].
  cbn [map tools_loop fold_right]. rewrite !bind_run, strip_idemp.
  match goal with
  | |- context [match ?c res with _ => _ end] => destruct (c res) as [r' [e|u]]
  end; [done|apply IH].
Qed.

(** X15.  A sequence of tool names none of which holds a comma, and
    the text that joins them with a comma and a space, draw the same
    diagnostics from [_validate_allowed_tools]. *)
Theorem tools_sequence_and_text_agree
    (h : store) (r : ref) (res : ValidationResult) :
  Forall (fun t => Py.has_char ","%char t = false) (deref h r) ->
  _validate_allowed_tools h (VStr (Py.join ", " (deref h r))) res
  = _validate_allowed_tools h (VList r) res.
Proof.
  intros Hall.
  change (_validate_allowed_tools h (VStr (Py.join ", " (deref h r))))
    with (tools_loop (map Py.strip (Py.split_comma (Py.join ", " (deref h r))))).
  change (_validate_allowed_tools h (VList r)) with (tools_loop (deref h r)).
  destruct (deref h r) as [|x l] eqn:E; [done|].
  rewrite split_join_strip by done. apply tools_loop_strip.
Qed.

Lemma tools_sequence_and_text_agree_witness :
  Forall (fun t => Py.has_char ","%char t = false)
    (deref {[ 0%nat := ["Edit"; "Bash(git:*)"; "Shell"] ]} 0)
  /\ _validate_allowed_tools {[ 0%nat := ["Edit"; "Bash(git:*)"; "Shell"] ]}
       (VStr "Edit, Bash(git:*), Shell") (new_result "deploy.md")
     = _validate_allowed_tools {[ 0%nat := ["Edit"; "Bash(git:*)"; "Shell"] ]}
         (VList 0) (new_result "deploy.md").
Proof.
  assert (H : Forall (fun t => Py.has_char ","%char t = false)
                (deref {[ 0%nat := ["Edit"; "Bash(git:*)"; "Shell"] ]} 0))
    by (vm_compute; repeat constructor).
  split; [exact H|].
  exact (tools_sequence_and_text_agree
           {[ 0%nat := ["Edit"; "Bash(git:*)"; "Shell"] ]} 0%nat
           (new_result "deploy.md") H).
Defined.
